(** * UltraStable supply adjustment: the manager of core/ultrastable_integration.go
      and the genesis set-up of core/genesis_ultrastable.go.

    The ledger (go-ethereum's StateDB), the key derivation [common.HexToHash]
    and the proprietary decision source are collaborators of the code under
    study.  The ledger is modelled as a pair of finite maps and the decision
    source is a parameter.  The manager is written over its key derivation,
    and the properties that depend on where a slot name lands are proved for
    go-ethereum's [common.HexToHash], which is transcribed below. *)

From Stdlib Require Import ZArith String Ascii List Lia.
From Stdlib Require Import DecimalString DecimalZ DecimalPos.
From stdpp Require Import base option list gmap strings.

Local Open Scope string_scope.
Local Open Scope Z_scope.

(** ** Machine integers and 32-byte words *)

(** A [common.Hash] is a 32-byte word, kept as the unsigned number it spells
    (big-endian); a byte slice handed to [BytesToHash] is kept the same way.
    Every producer of a word ([BytesToHash], [common.HexToHash]) reduces it
    modulo 2^256. *)
Definition Hash := Z.
Definition Address := Z.

Definition two256 : Z := 2 ^ 256.

(** [big.Int.Bytes]: the big-endian bytes of the absolute value. *)
Definition Bytes (x : Z) : Z := Z.abs x.

(** [common.BytesToHash]: a slice longer than 32 bytes is cropped from the
    left, a shorter one is left-padded with zeroes. *)
Definition BytesToHash (b : Z) : Hash := b mod two256.

(** [new(big.Int).SetBytes(h[:])]. *)
Definition SetBytes (h : Hash) : Z := h.

(** [big.Int.Int64]: the low 64 bits, read as a signed integer. *)
Definition wrap64 (x : Z) : Z := (x + 2 ^ 63) mod 2 ^ 64 - 2 ^ 63.
Definition Int64 (x : Z) : Z := wrap64 x.

(** [big.Int.Uint64] followed by the conversion [uint8(...)]. *)
Definition Uint64 (x : Z) : Z := Z.abs x mod 2 ^ 64.
Definition uint8 (x : Z) : Z := x mod 2 ^ 8.

(** [uint256.FromBig]: the value modulo 2^256 (two's complement for a negative
    argument) and whether the magnitude needed more than 256 bits. *)
Definition FromBig (b : Z) : Z * bool := (b mod two256, two256 <=? Z.abs b).

(** [uint256.Int.ToBig]: a balance as a [big.Int]. *)
Definition ToBig (x : Z) : Z := x.

(** [big.Int.String] (and [big.NewInt(i).String]): decimal digits, with a
    leading minus sign for a negative number. *)
Definition String_ (x : Z) : string := NilZero.string_of_int (Z.to_int x).

(** [time.Time], kept as nanoseconds since the Unix epoch. *)
Definition Time := Z.
Definition Unix (t : Time) : Z := t / 10 ^ 9.
Definition time_Unix (sec nsec : Z) : Time := sec * 10 ^ 9 + nsec.
Definition After (t u : Time) : bool := u <? t.

(** ** go-ethereum's key derivation *)

(** [common.HexToHash] of go-ethereum (common/types.go) and the functions it
    is made of: [common.FromHex] and [common.Hex2Bytes] (common/bytes.go) and
    [hex.DecodeString] of Go's encoding/hex.  The manager passes the name of
    every storage slot through it.  It reads its argument as hexadecimal
    digits and is no hash of the name: decoding stops at the first pair that
    is not hexadecimal, and the error is dropped.  A byte slice is the list
    of its bytes here. *)
Module common.
(** [fromHexChar]: the value of a hexadecimal digit, in either case. *)
Definition fromHexChar (c : ascii) : option Z :=
  let n := Z.of_N (N_of_ascii c) in
  if (48 <=? n) && (n <=? 57) then Some (n - 48)
  else if (97 <=? n) && (n <=? 102) then Some (n - 97 + 10)
  else if (65 <=? n) && (n <=? 70) then Some (n - 65 + 10)
  else Datatypes.None.

(** [hex.DecodeString]: the bytes decoded before the first pair that holds a
    character other than a hexadecimal digit, and whether the whole string
    was decoded. *)
Fixpoint DecodeString (s : string) : list Z * bool :=
  match s with
  | EmptyString => ([], true)
  | String p EmptyString => ([], false)
  | String p (String q rest) =>
    match fromHexChar p, fromHexChar q with
    | Some a, Some b =>
      let '(decoded, ok) := DecodeString rest in ((a * 16 + b) :: decoded, ok)
    | _, _ => ([], false)
    end
  end.

(** [Hex2Bytes] drops the error of [hex.DecodeString]. *)
Definition Hex2Bytes (str : string) : list Z := fst (DecodeString str).

Definition has0xPrefix (str : string) : bool :=
  match str with
  | String c0 (String c1 _) =>
    Ascii.eqb c0 "0" && (Ascii.eqb c1 "x" || Ascii.eqb c1 "X")
  | _ => false
  end.

Definition FromHex (s : string) : list Z :=
  let s := if has0xPrefix s then String.substring 2 (String.length s - 2)%nat s else s in
  let s := if Nat.odd (String.length s) then "0" +:+ s else s in
  Hex2Bytes s.

(** The number a byte slice spells. *)
Definition bytesValue (b : list Z) : Z := fold_left (fun acc x => acc * 256 + x) b 0.

Definition HexToHash (s : string) : Hash := BytesToHash (bytesValue (FromHex s)).
End common.

(** ** params/addresses.go *)

Module params.
Definition O2ULTokenSystemAddress : Address := 0x1001.
Definition UltraStableTokenSystemAddress : Address := 0x1002.
Definition StakingSystemAddress : Address := 0x1003.
Definition OracleSystemAddress : Address := 0x1004.
Definition SeigniorageSystemAddress : Address := 0x1005.
Definition GovernanceSystemAddress : Address := 0x1006.
End params.

(** ** The decision record of the seigniorage package *)

Module seigniorage.
Inductive AdjustmentType := None | Expansion | Contraction.

Record AdjustmentResult := mkAdjustment {
  Type_ : AdjustmentType;
  Amount : Z;
  ValueTokens : Z;
  DeviationBps : Z;
  NewSupply : Z;
  Timestamp : Time
}.
End seigniorage.

Import seigniorage (AdjustmentType, AdjustmentResult, mkAdjustment,
                    Type_, Amount, ValueTokens, DeviationBps, NewSupply, Timestamp).

#[global] Instance AdjustmentType_eq_dec : EqDecision AdjustmentType.
Proof. solve_decision. Defined.

#[global] Instance AdjustmentResult_eq_dec : EqDecision AdjustmentResult.
Proof. solve_decision. Defined.

(** ** A state monad for code that mutates through a pointer *)

Definition M (S A : Type) : Type := S -> A * S.

#[global] Instance M_ret {S} : MRet (M S) := fun A (a : A) s => (a, s).
#[global] Instance M_bind {S} : MBind (M S) :=
  fun A B (f : A -> M S B) (c : M S A) s => let '(a, s') := c s in f a s'.

Definition get {S} : M S S := fun s => (s, s).
Definition modify {S} (f : S -> S) : M S unit := fun s => (tt, f s).
Definition exec {S A} (c : M S A) (s : S) : S := snd (c s).
Definition eval {S A} (c : M S A) (s : S) : A := fst (c s).

(** [for k, v := range entries { body }] over the entries in some order. *)
Fixpoint for_range {S K V} (entries : list (K * V)) (body : K -> V -> M S unit) : M S unit :=
  match entries with
  | [] => mret tt
  | (k, v) :: rest => body k v ;; for_range rest body
  end.

(** ** The ledger *)

(** Modelled from the spec: the Ledger Accessor ([core/state.StateDB] is not
    among the sources): a key-value store keyed by (system account, key hash)
    holding 32-byte words, and a balance ledger keyed by account holding
    unsigned 256-bit balances.  An absent slot reads as the zero word, an
    absent account has balance zero, and balance arithmetic is that of
    [uint256.Int] (modulo 2^256). *)
Record StateDB := mkStateDB {
  balances : gmap Address Z;
  storage : gmap (Address * Hash) Hash
}.

Definition emptyStateDB : StateDB := mkStateDB ∅ ∅.

Definition readState (s : StateDB) (addr : Address) (key : Hash) : Hash :=
  default 0 (storage s !! (addr, key)).
Definition readBalance (s : StateDB) (addr : Address) : Z :=
  default 0 (balances s !! addr).

Definition writeState (addr : Address) (key value : Hash) (s : StateDB) : StateDB :=
  mkStateDB (balances s) (<[(addr, key) := value]> (storage s)).
Definition writeBalance (addr : Address) (value : Z) (s : StateDB) : StateDB :=
  mkStateDB (<[addr := value]> (balances s)) (storage s).

Definition GetState (addr : Address) (key : Hash) : M StateDB Hash :=
  fun s => (readState s addr key, s).
Definition SetState (addr : Address) (key value : Hash) : M StateDB unit :=
  modify (writeState addr key value).
Definition GetBalance (addr : Address) : M StateDB Z :=
  fun s => (readBalance s addr, s).
Definition AddBalance (addr : Address) (amount : Z) (reason : Z) : M StateDB unit :=
  fun s => (tt, writeBalance addr ((readBalance s addr + amount) mod two256) s).
Definition SubBalance (addr : Address) (amount : Z) (reason : Z) : M StateDB unit :=
  fun s => (tt, writeBalance addr ((readBalance s addr - amount) mod two256) s).

(** ** Collaborators of the manager *)

(** The configuration record of the proprietary [ultrastable] package, with
    the fields the genesis set-up reads; a Go map is kept as the list of its
    entries in the order the [range] loop happens to visit them. *)
Module ultrastable.
Record Config := mkConfig {
  InitialSupply : Z;
  UpdateFrequency : Z;
  ContinentalWeights : list (string * Z);
  TimeframeWeights : list (string * Z);
  SmoothingWindows : list (string * Z)
}.
End ultrastable.

(** The proprietary manager: the decision source.  Its code is not part of the
    repository, so every theorem below holds for any implementation of it. *)
Class Proprietary := {
  GetLastUpdateTime : Time;
  CalculateSupplyAdjustment : Z -> Z -> Z -> AdjustmentResult;
  IsAdjustmentPossible : AdjustmentResult -> Z -> Z -> bool * string;
  GetTargetStableValue : Z;
  GetCurrentStableValue : Z;
  GetStableConfig : ultrastable.Config
}.

(** Go's [error]: [nil] or a message. *)
Definition error := option string.
Definition nil : error := Datatypes.None.
Definition errors_New (msg : string) : error := Some msg.

Inductive Level := LvlDebug | LvlInfo | LvlWarn | LvlError.

(** [m.blockchain.State()] hands out the ledger of the chain, or fails. *)
Record BlockChain := mkBlockChain {
  stateErr : error;
  ledger : StateDB
}.

Record UltraStableManager := mkManager {
  blockchain : BlockChain;
  lastUpdateTime : Time;
  updateFeed : list AdjustmentResult;
  adjustFeed : list AdjustmentResult;
  logged : list (Level * string)
}.

Definition State (bc : BlockChain) : StateDB * error := (ledger bc, stateErr bc).

(** [statedb.op(...)]: run a ledger operation through the pointer that
    [m.blockchain.State()] returned; every holder of the pointer sees the
    mutation. *)
Definition statedb {A} (op : M StateDB A) : M UltraStableManager A :=
  fun m =>
    let '(a, s') := op (ledger (blockchain m)) in
    (a, mkManager (mkBlockChain (stateErr (blockchain m)) s')
                  (lastUpdateTime m) (updateFeed m) (adjustFeed m) (logged m)).

Definition blockchain_State : M UltraStableManager error :=
  fun m => (snd (State (blockchain m)), m).

Definition log (lvl : Level) (msg : string) : M UltraStableManager unit :=
  modify (fun m => mkManager (blockchain m) (lastUpdateTime m) (updateFeed m)
                             (adjustFeed m) (logged m ++ [(lvl, msg)])).

Definition updateFeed_Send (a : AdjustmentResult) : M UltraStableManager unit :=
  modify (fun m => mkManager (blockchain m) (lastUpdateTime m) (updateFeed m ++ [a])
                             (adjustFeed m) (logged m)).

Definition adjustFeed_Send (a : AdjustmentResult) : M UltraStableManager unit :=
  modify (fun m => mkManager (blockchain m) (lastUpdateTime m) (updateFeed m)
                             (adjustFeed m ++ [a]) (logged m)).

Definition set_lastUpdateTime (t : Time) : M UltraStableManager unit :=
  modify (fun m => mkManager (blockchain m) t (updateFeed m) (adjustFeed m) (logged m)).

(** ** core/ultrastable_integration.go *)

Section Manager.
(** The key derivation the code applies to the names of the storage slots.
    The manager is written over it; the program is the manager at
    [common.HexToHash]. *)
Variable HexToHash : string -> Hash.
Context {proprietary : Proprietary}.

Import params.

Definition stablecoinAdjustmentReason : Z := 1.

Definition typeValue (t : AdjustmentType) : Z :=
  match t with
  | seigniorage.Expansion => 1
  | seigniorage.Contraction => 2
  | seigniorage.None => 0
  end.

Definition updateAdjustmentHistory (adjustment : AdjustmentResult) : M UltraStableManager unit :=
  err ← blockchain_State;
  match err with
  | Some _ => log LvlError "Failed to get state for history update"
  | Datatypes.None =>
    countBytes ← statedb (GetState UltraStableTokenSystemAddress
                            (HexToHash "adjustment_history_count"));
    let count := SetBytes countBytes in
    let newCount := count + 1 in
    statedb (SetState UltraStableTokenSystemAddress
               (HexToHash "adjustment_history_count")
               (BytesToHash (Bytes newCount)));;
    let prefix := ("adjustment_" +:+ String_ count) +:+ "_" in
    statedb (SetState UltraStableTokenSystemAddress
               (HexToHash (prefix +:+ "type"))
               (BytesToHash (Bytes (typeValue (Type_ adjustment)))));;
    statedb (SetState UltraStableTokenSystemAddress
               (HexToHash (prefix +:+ "amount"))
               (BytesToHash (Bytes (Amount adjustment))));;
    statedb (SetState UltraStableTokenSystemAddress
               (HexToHash (prefix +:+ "value_tokens"))
               (BytesToHash (Bytes (ValueTokens adjustment))));;
    statedb (SetState UltraStableTokenSystemAddress
               (HexToHash (prefix +:+ "deviation"))
               (BytesToHash (Bytes (DeviationBps adjustment))));;
    statedb (SetState UltraStableTokenSystemAddress
               (HexToHash (prefix +:+ "new_supply"))
               (BytesToHash (Bytes (NewSupply adjustment))));;
    statedb (SetState UltraStableTokenSystemAddress
               (HexToHash (prefix +:+ "timestamp"))
               (BytesToHash (Bytes (Unix (Timestamp adjustment)))));;
    log LvlDebug "Updated adjustment history"
  end.

Definition ApplySupplyAdjustment (adjustment : AdjustmentResult) (treasuryAddr : Address)
  : M UltraStableManager error :=
  if decide (Type_ adjustment = seigniorage.None) then mret nil
  else
    err ← blockchain_State;
    match err with
    | Some e => mret (Some e)
    | Datatypes.None =>
      minSupplyBytes ← statedb (GetState UltraStableTokenSystemAddress
                                  (HexToHash "ultrastable_minimum_supply"));
      let minSupply := SetBytes minSupplyBytes in
      treasuryBalance ← statedb (GetBalance treasuryAddr);
      let '(possible, reason) :=
        IsAdjustmentPossible adjustment (ToBig treasuryBalance) minSupply in
      if negb possible then
        log LvlWarn "Supply adjustment not possible";;
        mret nil
      else
        let finish : M UltraStableManager error :=
          updateAdjustmentHistory adjustment;;
          adjustFeed_Send adjustment;;
          mret nil in
        match Type_ adjustment with
        | seigniorage.Expansion =>
          let '(valueAmount, overflow) := FromBig (ValueTokens adjustment) in
          if overflow then mret (errors_New "value token amount overflow")
          else
            statedb (SubBalance treasuryAddr valueAmount stablecoinAdjustmentReason);;
            supplyBytes ← statedb (GetState UltraStableTokenSystemAddress
                                     (HexToHash "ultrastable_current_supply"));
            let currentSupply := SetBytes supplyBytes in
            let newSupply := currentSupply + Amount adjustment in
            statedb (SetState UltraStableTokenSystemAddress
                       (HexToHash "ultrastable_current_supply")
                       (BytesToHash (Bytes newSupply)));;
            log LvlInfo "Applied expansion adjustment";;
            finish
        | seigniorage.Contraction =>
          let '(valueAmount, overflow) := FromBig (ValueTokens adjustment) in
          if overflow then mret (errors_New "value token amount overflow")
          else
            statedb (AddBalance treasuryAddr valueAmount stablecoinAdjustmentReason);;
            supplyBytes ← statedb (GetState UltraStableTokenSystemAddress
                                     (HexToHash "ultrastable_current_supply"));
            let currentSupply := SetBytes supplyBytes in
            let newSupply := currentSupply - Amount adjustment in
            statedb (SetState UltraStableTokenSystemAddress
                       (HexToHash "ultrastable_current_supply")
                       (BytesToHash (Bytes newSupply)));;
            log LvlInfo "Applied contraction adjustment";;
            finish
        | seigniorage.None => finish
        end
    end.

Definition ProcessUpdate (now now' : Time) : M UltraStableManager unit :=
  err ← blockchain_State;
  match err with
  | Some _ => log LvlError "Failed to get blockchain state"
  | Datatypes.None =>
    supplyBytes ← statedb (GetState UltraStableTokenSystemAddress
                             (HexToHash "ultrastable_current_supply"));
    let currentSupply := SetBytes supplyBytes in
    priceBytes ← statedb (GetState O2ULTokenSystemAddress
                            (HexToHash "value_token_price"));
    let valueTokenPrice := SetBytes priceBytes in
    let valueTokenPrice :=
      if valueTokenPrice =? 0 then 10 ^ 18 else valueTokenPrice in
    volatilityBytes ← statedb (GetState UltraStableTokenSystemAddress
                                 (HexToHash "market_volatility"));
    let volatility := uint8 (Uint64 (SetBytes volatilityBytes)) in
    let adjustment :=
      CalculateSupplyAdjustment currentSupply valueTokenPrice volatility in
    updateFeed_Send adjustment;;
    let targetValue := GetTargetStableValue in
    statedb (SetState UltraStableTokenSystemAddress
               (HexToHash "ultrastable_target_value")
               (BytesToHash (Bytes targetValue)));;
    let currentValue := GetCurrentStableValue in
    statedb (SetState UltraStableTokenSystemAddress
               (HexToHash "ultrastable_current_value")
               (BytesToHash (Bytes currentValue)));;
    let updateTime := Unix now in
    statedb (SetState UltraStableTokenSystemAddress
               (HexToHash "ultrastable_last_update_time")
               (BytesToHash (Bytes updateTime)));;
    set_lastUpdateTime now';;
    log LvlInfo "Processed UltraStable update"
  end.

(** One tick of [updateWorker]; [now] and [now'] are what the two calls of
    [time.Now] in [ProcessUpdate] return. *)
Definition checkForUpdates (now now' : Time) : M UltraStableManager unit :=
  m ← get;
  let lastUpdate := lastUpdateTime m in
  let proprietaryUpdate := GetLastUpdateTime in
  if After proprietaryUpdate lastUpdate then
    log LvlInfo "New UltraStable data available, triggering update";;
    ProcessUpdate now now'
  else mret tt.

(** The body of the retrieval loop: the record stored under index [i]. *)
Definition fetchEntry (i : Z) : M StateDB AdjustmentResult :=
  let prefix := ("adjustment_" +:+ String_ i) +:+ "_" in
  typeBytes ← GetState UltraStableTokenSystemAddress (HexToHash (prefix +:+ "type"));
  let typeValue := Int64 (SetBytes typeBytes) in
  let adjustType :=
    if typeValue =? 1 then seigniorage.Expansion
    else if typeValue =? 2 then seigniorage.Contraction
    else seigniorage.None in
  amountBytes ← GetState UltraStableTokenSystemAddress (HexToHash (prefix +:+ "amount"));
  let amount := SetBytes amountBytes in
  valueTokensBytes ← GetState UltraStableTokenSystemAddress
                       (HexToHash (prefix +:+ "value_tokens"));
  let valueTokens := SetBytes valueTokensBytes in
  deviationBytes ← GetState UltraStableTokenSystemAddress
                     (HexToHash (prefix +:+ "deviation"));
  let deviation := SetBytes deviationBytes in
  supplyBytes ← GetState UltraStableTokenSystemAddress
                  (HexToHash (prefix +:+ "new_supply"));
  let newSupply := SetBytes supplyBytes in
  timestampBytes ← GetState UltraStableTokenSystemAddress
                     (HexToHash (prefix +:+ "timestamp"));
  let timestamp := Int64 (SetBytes timestampBytes) in
  mret (mkAdjustment adjustType amount valueTokens deviation newSupply
                     (time_Unix timestamp 0)).

(** [for i := start; i < count; i++ { ... }]; [steps] bounds the number of
    iterations and [GetAdjustmentHistory] passes [count - start], which is
    exactly what the loop performs ([i] stays below [count], so [i++] never
    leaves the int64 range). *)
Fixpoint fetchLoop (steps : nat) (i count : Z) (results : list AdjustmentResult)
  : M StateDB (list AdjustmentResult) :=
  match steps with
  | O => mret results
  | S steps' =>
    if i <? count then
      result ← fetchEntry i;
      fetchLoop steps' (i + 1) count (results ++ [result])
    else mret results
  end.

Definition GetAdjustmentHistory (maxEntries : Z)
  : M UltraStableManager (list AdjustmentResult) :=
  err ← blockchain_State;
  match err with
  | Some _ =>
    log LvlError "Failed to get state for history retrieval";;
    mret []
  | Datatypes.None =>
    countBytes ← statedb (GetState UltraStableTokenSystemAddress
                            (HexToHash "adjustment_history_count"));
    let count := Int64 (SetBytes countBytes) in
    let results := [] in
    let start := wrap64 (count - wrap64 maxEntries) in
    let start := if start <? 0 then 0 else start in
    statedb (fetchLoop (Z.to_nat (count - start)) start count results)
  end.

(** ** core/genesis_ultrastable.go *)

(** [[]byte(s)] as the number its bytes spell. *)
Definition bytes_of_string (s : string) : Z :=
  fold_left (fun acc c => acc * 256 + Z.of_N (N_of_ascii c)) (list_ascii_of_string s) 0.

(** [now] is the value of [time.Now()]; logging is left out. *)
Definition SetupUltraStableToken (now : Time) (treasuryAddr : Address) : M StateDB unit :=
  let config := GetStableConfig in
  let '(initialSupply, overflow) := FromBig (ultrastable.InitialSupply config) in
  if overflow then mret tt
  else
    let genesisInitReason := 0 in
    AddBalance treasuryAddr initialSupply genesisInitReason;;
    SetState UltraStableTokenSystemAddress (HexToHash "ultrastable_token_name")
             (BytesToHash (bytes_of_string "UltraStable"));;
    SetState UltraStableTokenSystemAddress (HexToHash "ultrastable_token_symbol")
             (BytesToHash (bytes_of_string "USUL"));;
    SetState UltraStableTokenSystemAddress (HexToHash "ultrastable_token_decimals")
             (BytesToHash (Bytes 18));;
    SetState UltraStableTokenSystemAddress (HexToHash "ultrastable_initial_supply")
             (BytesToHash (Bytes (ultrastable.InitialSupply config)));;
    SetState UltraStableTokenSystemAddress (HexToHash "ultrastable_current_supply")
             (BytesToHash (Bytes (ultrastable.InitialSupply config)));;
    SetState UltraStableTokenSystemAddress (HexToHash "ultrastable_minimum_supply")
             (BytesToHash (Bytes (10 ^ 18)));;
    SetState UltraStableTokenSystemAddress (HexToHash "ultrastable_update_frequency")
             (BytesToHash (Bytes (wrap64 (ultrastable.UpdateFrequency config))));;
    SetState UltraStableTokenSystemAddress (HexToHash "ultrastable_initial_value")
             (BytesToHash (Bytes (10 ^ 18)));;
    SetState UltraStableTokenSystemAddress (HexToHash "ultrastable_current_value")
             (BytesToHash (Bytes (10 ^ 18)));;
    SetState UltraStableTokenSystemAddress (HexToHash "ultrastable_target_value")
             (BytesToHash (Bytes (10 ^ 18)));;
    SetState UltraStableTokenSystemAddress (HexToHash "ultrastable_last_update_time")
             (BytesToHash (Bytes (Unix now)));;
    SetState UltraStableTokenSystemAddress (HexToHash "market_volatility")
             (BytesToHash (Bytes 25));;
    SetState UltraStableTokenSystemAddress (HexToHash "adjustment_history_count")
             (BytesToHash (Bytes 0));;
    for_range (ultrastable.ContinentalWeights config) (fun continent weight =>
      SetState UltraStableTokenSystemAddress
               (HexToHash ("continental_weight_" +:+ continent))
               (BytesToHash (Bytes (wrap64 weight))));;
    for_range (ultrastable.TimeframeWeights config) (fun timeframe weight =>
      SetState UltraStableTokenSystemAddress
               (HexToHash ("timeframe_weight_" +:+ timeframe))
               (BytesToHash (Bytes (wrap64 weight))));;
    for_range (ultrastable.SmoothingWindows config) (fun timeframe window =>
      SetState UltraStableTokenSystemAddress
               (HexToHash ("smoothing_window_" +:+ timeframe))
               (BytesToHash (Bytes (wrap64 window))));;
    SetState UltraStableTokenSystemAddress (HexToHash "treasury_address")
             (BytesToHash treasuryAddr).
End Manager.

(** ** What a caller can observe of the ledger *)

Section Observations.
Variable HexToHash : string -> Hash.
Import params.

Definition ledgerOf (m : UltraStableManager) : StateDB := ledger (blockchain m).

(** The persisted stable-token supply. *)
Definition currentSupply (s : StateDB) : Z :=
  SetBytes (readState s UltraStableTokenSystemAddress
              (HexToHash "ultrastable_current_supply")).

Definition minimumSupply (s : StateDB) : Z :=
  SetBytes (readState s UltraStableTokenSystemAddress
              (HexToHash "ultrastable_minimum_supply")).

(** The persisted number of history records. *)
Definition historyCount (s : StateDB) : Z :=
  SetBytes (readState s UltraStableTokenSystemAddress
              (HexToHash "adjustment_history_count")).

(** The name of the slot that holds [field] of record [i]. *)
Definition recordKey (i : Z) (field : string) : string :=
  (("adjustment_" +:+ String_ i) +:+ "_") +:+ field.

Definition recordWord (s : StateDB) (i : Z) (field : string) : Hash :=
  readState s UltraStableTokenSystemAddress (HexToHash (recordKey i field)).

(** The six words of a history record, in the order they are written. *)
Definition recordFields : list string :=
  ["type"; "amount"; "value_tokens"; "deviation"; "new_supply"; "timestamp"].

Definition storedRecord (s : StateDB) (i : Z) : list Hash :=
  map (recordWord s i) recordFields.

(** Whether the decimal rendering of an index has an odd number of
    characters. *)
Definition oddDigits (i : Z) : bool := Nat.odd (String.length (String_ i)).

(** The kind a caller decodes from a stored word. *)
Definition kindOfWord (w : Hash) : AdjustmentType :=
  if Int64 (SetBytes w) =? 1 then seigniorage.Expansion
  else if Int64 (SetBytes w) =? 2 then seigniorage.Contraction
  else seigniorage.None.

(** The history record that the six words stored under index [i] spell: the
    kind decoded from the first, three amounts and the announced supply as
    they stand, the time from the seconds in the last. *)
Definition storedEntry (s : StateDB) (i : Z) : AdjustmentResult :=
  mkAdjustment (kindOfWord (recordWord s i "type"))
               (SetBytes (recordWord s i "amount"))
               (SetBytes (recordWord s i "value_tokens"))
               (SetBytes (recordWord s i "deviation"))
               (SetBytes (recordWord s i "new_supply"))
               (time_Unix (Int64 (SetBytes (recordWord s i "timestamp"))) 0).

(** The six words the journal keeps of a decision. *)
Definition recordOf (a : AdjustmentResult) : list Hash :=
  [ BytesToHash (Bytes (typeValue (Type_ a)));
    BytesToHash (Bytes (Amount a));
    BytesToHash (Bytes (ValueTokens a));
    BytesToHash (Bytes (DeviationBps a));
    BytesToHash (Bytes (NewSupply a));
    BytesToHash (Bytes (Unix (Timestamp a))) ].
End Observations.

(** ** The ledger effect of one call, in closed form *)

Section LedgerEffects.
Variable HexToHash : string -> Hash.
Context {proprietary : Proprietary}.
Import params.

(** The writes of [updateAdjustmentHistory], oldest innermost. *)
Definition journalAppend (a : AdjustmentResult) (s : StateDB) : StateDB :=
  let count := historyCount HexToHash s in
  let put field value :=
    writeState UltraStableTokenSystemAddress (HexToHash (recordKey count field))
               (BytesToHash (Bytes value)) in
  put "timestamp" (Unix (Timestamp a))
    (put "new_supply" (NewSupply a)
       (put "deviation" (DeviationBps a)
          (put "value_tokens" (ValueTokens a)
             (put "amount" (Amount a)
                (put "type" (typeValue (Type_ a))
                   (writeState UltraStableTokenSystemAddress
                      (HexToHash "adjustment_history_count")
                      (BytesToHash (Bytes (count + 1))) s)))))).

(** The balance and supply writes of the two branches of
    [ApplySupplyAdjustment]. *)
Definition settle (a : AdjustmentResult) (treasuryAddr : Address) (s : StateDB) : StateDB :=
  let valueAmount := fst (FromBig (ValueTokens a)) in
  let supply := currentSupply HexToHash s in
  match Type_ a with
  | seigniorage.Expansion =>
    writeState UltraStableTokenSystemAddress (HexToHash "ultrastable_current_supply")
               (BytesToHash (Bytes (supply + Amount a)))
               (writeBalance treasuryAddr
                  ((readBalance s treasuryAddr - valueAmount) mod two256) s)
  | seigniorage.Contraction =>
    writeState UltraStableTokenSystemAddress (HexToHash "ultrastable_current_supply")
               (BytesToHash (Bytes (supply - Amount a)))
               (writeBalance treasuryAddr
                  ((readBalance s treasuryAddr + valueAmount) mod two256) s)
  | seigniorage.None => s
  end.

(** What an applied call logs. *)
Definition appliedLog (a : AdjustmentResult) : list (Level * string) :=
  match Type_ a with
  | seigniorage.Expansion => [(LvlInfo, "Applied expansion adjustment")]
  | seigniorage.Contraction => [(LvlInfo, "Applied contraction adjustment")]
  | seigniorage.None => []
  end ++ [(LvlDebug, "Updated adjustment history")].

(** What the feasibility predicate answers on the ledger as it stands. *)
Definition feasible (a : AdjustmentResult) (treasuryAddr : Address) (s : StateDB) : bool :=
  fst (IsAdjustmentPossible a (ToBig (readBalance s treasuryAddr))
                            (minimumSupply HexToHash s)).

(** Whether the counterpart amount fits the 256-bit balance type. *)
Definition fits256 (a : AdjustmentResult) : bool := negb (snd (FromBig (ValueTokens a))).

(** The calls that get as far as mutating the ledger. *)
Definition applied (a : AdjustmentResult) (treasuryAddr : Address)
           (m : UltraStableManager) : bool :=
  bool_decide (Type_ a <> seigniorage.None)
  && bool_decide (stateErr (blockchain m) = nil)
  && feasible a treasuryAddr (ledgerOf m)
  && fits256 a.

(** The decision [ProcessUpdate] obtains from the ledger as it stands. *)
Definition decisionFor (s : StateDB) : AdjustmentResult :=
  let stored := SetBytes (readState s O2ULTokenSystemAddress
                            (HexToHash "value_token_price")) in
  CalculateSupplyAdjustment
    (currentSupply HexToHash s)
    (if stored =? 0 then 10 ^ 18 else stored)
    (uint8 (Uint64 (SetBytes (readState s UltraStableTokenSystemAddress
                                (HexToHash "market_volatility"))))).

(** The three writes of [ProcessUpdate]. *)
Definition statusWrites (now : Time) (s : StateDB) : StateDB :=
  writeState UltraStableTokenSystemAddress (HexToHash "ultrastable_last_update_time")
             (BytesToHash (Bytes (Unix now)))
    (writeState UltraStableTokenSystemAddress (HexToHash "ultrastable_current_value")
                (BytesToHash (Bytes GetCurrentStableValue))
       (writeState UltraStableTokenSystemAddress (HexToHash "ultrastable_target_value")
                   (BytesToHash (Bytes GetTargetStableValue)) s)).

(** A sequence of direct calls, and the decisions among them that were
    applied, in order. *)
Fixpoint applyAll (calls : list (AdjustmentResult * Address)) (m : UltraStableManager)
  : UltraStableManager * list AdjustmentResult :=
  match calls with
  | [] => (m, [])
  | (a, t) :: rest =>
    let '(m', done) := applyAll rest (exec (ApplySupplyAdjustment HexToHash a t) m) in
    (m', if applied a t m then a :: done else done)
  end.
End LedgerEffects.

(** ** A sample decision source, to run the code on *)

(** A decision source that accepts an expansion the treasury can pay for and a
    contraction whose announced supply stays at or above the minimum. *)
#[global] Instance sampleSource : Proprietary := {|
  GetLastUpdateTime := 1700000000 * 10 ^ 9;
  CalculateSupplyAdjustment supply price volatility :=
    mkAdjustment seigniorage.Expansion (supply / 100)
                 (supply / 100 * 10 ^ 18 / price / 200)
                 volatility (supply + supply / 100) (1700000000 * 10 ^ 9);
  IsAdjustmentPossible a treasuryBalance minSupply :=
    match Type_ a with
    | seigniorage.Expansion =>
        (ValueTokens a <=? treasuryBalance, "insufficient treasury balance")
    | seigniorage.Contraction =>
        (minSupply <=? NewSupply a, "below minimum supply")
    | seigniorage.None => (true, "")
    end;
  GetTargetStableValue := 10 ^ 18;
  GetCurrentStableValue := 10 ^ 18;
  GetStableConfig :=
    ultrastable.mkConfig (1000000 * 10 ^ 18) 21600
      [("NorthAmerica", 32); ("Europe", 16)] [("Current", 1); ("3Day", 2)]
      [("Current", 1)]
|}.

Definition sampleTreasury : Address := 0xbeef.

Definition managerOf (s : StateDB) : UltraStableManager :=
  mkManager (mkBlockChain nil s) 0 [] [] [].

(** The ledger right after genesis with the sample configuration, and the
    treasury holding 500 x 10^18 units of the value token.  The last write of
    genesis leaves the treasury address, 48879, in the slot the supply is
    read from. *)
Definition sampleGenesis : StateDB :=
  writeBalance sampleTreasury (500 * 10 ^ 18)
    (exec (SetupUltraStableToken common.HexToHash 0 sampleTreasury) emptyStateDB).

Definition sampleExpansion : AdjustmentResult :=
  mkAdjustment seigniorage.Expansion (10000 * 10 ^ 18) (50 * 10 ^ 18) 120
               (1010000 * 10 ^ 18) (1700000000 * 10 ^ 9).

Definition sampleManager : UltraStableManager := managerOf sampleGenesis.

(** The sample manager after one scheduler tick. *)
Definition sampleAfterTick : UltraStableManager :=
  exec (checkForUpdates common.HexToHash (1700000100 * 10 ^ 9) (1700000101 * 10 ^ 9))
       sampleManager.

(** The ledger right after genesis on an empty state: the treasury holds the
    initial supply. *)
Definition sampleFresh : UltraStableManager :=
  managerOf (exec (SetupUltraStableToken common.HexToHash 0 sampleTreasury) emptyStateDB).

(** A decision of kind [None]. *)
Definition sampleNone : AdjustmentResult :=
  mkAdjustment seigniorage.None 0 0 0 (1000000 * 10 ^ 18) (1700000000 * 10 ^ 9).

(** An expansion the treasury cannot pay for. *)
Definition sampleUnaffordable : AdjustmentResult :=
  mkAdjustment seigniorage.Expansion (10000 * 10 ^ 18) (600 * 10 ^ 18) 120
               (1010000 * 10 ^ 18) (1700000000 * 10 ^ 9).

(** An expansion whose counterpart amount needs 257 bits. *)
Definition sampleOversized : AdjustmentResult :=
  mkAdjustment seigniorage.Expansion (10000 * 10 ^ 18) two256 120
               (1010000 * 10 ^ 18) (1700000000 * 10 ^ 9).

(** A contraction with a counterpart amount that needs 257 bits; the sample
    source accepts it. *)
Definition sampleOversizedContraction : AdjustmentResult :=
  mkAdjustment seigniorage.Contraction (10000 * 10 ^ 18) two256 (-120)
               (990000 * 10 ^ 18) (1700000000 * 10 ^ 9).

(** An expansion that announces a resulting supply of 7. *)
Definition sampleMisreported : AdjustmentResult :=
  mkAdjustment seigniorage.Expansion (10000 * 10 ^ 18) (50 * 10 ^ 18) 120
               7 (1700000000 * 10 ^ 9).


(** A contraction by 10,000 x 10^18 that announces a resulting supply of
    990,000 x 10^18. *)
Definition sampleContraction : AdjustmentResult :=
  mkAdjustment seigniorage.Contraction (10000 * 10 ^ 18) (50 * 10 ^ 18) (-120)
               (990000 * 10 ^ 18) (1700000000 * 10 ^ 9).

(** A decision of kind [None] that carries an amount of 257 bits. *)
Definition sampleOversizedNone : AdjustmentResult :=
  mkAdjustment seigniorage.None 0 two256 0 (1000000 * 10 ^ 18) (1700000000 * 10 ^ 9).

(** What the sample source decides on the sample ledger, where the supply
    name reads 48879 and the volatility name 239. *)
Definition sampleDecision : AdjustmentResult :=
  mkAdjustment seigniorage.Expansion 488 2 239 49367 (1700000000 * 10 ^ 9).

(** The ledger of the scenario in the specification: the supply name reads
    1,000,000 x 10^18, the treasury holds 500 x 10^18, the journal is
    empty. *)
Definition sampleScenario : UltraStableManager :=
  managerOf
    (writeBalance sampleTreasury (500 * 10 ^ 18)
       (writeState params.UltraStableTokenSystemAddress
                   (common.HexToHash "ultrastable_current_supply")
                   (1000000 * 10 ^ 18) emptyStateDB)).


(** The sample manager with a history count of 2 on record. *)
Definition sampleJournal : UltraStableManager :=
  managerOf (writeState params.UltraStableTokenSystemAddress
                        (common.HexToHash "adjustment_history_count") 2 sampleGenesis).

(** The sample manager with a value-token price of 2.0 on record. *)
Definition samplePriced : UltraStableManager :=
  managerOf (writeState params.O2ULTokenSystemAddress (common.HexToHash "value_token_price")
                        (2 * 10 ^ 18) sampleGenesis).

(** Three direct calls, the second of kind [None], and the manager after
    them. *)
Definition sampleCalls : list (AdjustmentResult * Address) :=
  [(sampleExpansion, sampleTreasury); (sampleNone, sampleTreasury);
   (sampleContraction, sampleTreasury)].

Definition sampleAfterCalls : UltraStableManager :=
  fst (applyAll common.HexToHash sampleCalls sampleFresh).

(** ** More of the manager and of genesis *)

Section ManagerEntryPoints.
Variable HexToHash : string -> Hash.
Context {proprietary : Proprietary}.

Import params.

(** [ForceUpdate]; [queryErr] is what [m.proprietary.QueryAIOracle(ctx)]
    returned, and the decision source in scope is the one that answers after
    that query. *)
Definition ForceUpdate (queryErr : error) (now now' : Time) : M UltraStableManager error :=
  match queryErr with
  | Some e => mret (Some e)
  | Datatypes.None =>
    ProcessUpdate HexToHash now now';;
    mret nil
  end.
End ManagerEntryPoints.

(** core/genesis/o2ul_token.go. *)
Section GenesisTokens.
Variable HexToHash : string -> Hash.

Import params.

Definition MaxSupply : Z := 21000000 * 10 ^ 18.
Definition FounderAllocation : Z := 12600000 * 10 ^ 18.
Definition ReserveAllocation : Z := 8400000 * 10 ^ 18.

(** Logging is left out; the two balances read at the end only feed the
    log. *)
Definition SetupO2ULToken (founder reserve : Address) : M StateDB unit :=
  let '(founderAmount, _) := FromBig FounderAllocation in
  let '(reserveAmount, _) := FromBig ReserveAllocation in
  let genesisInitReason := 0 in
  AddBalance founder founderAmount genesisInitReason;;
  AddBalance reserve reserveAmount genesisInitReason;;
  SetState O2ULTokenSystemAddress (HexToHash "o2ul_max_supply")
           (BytesToHash (Bytes MaxSupply));;
  SetState O2ULTokenSystemAddress (HexToHash "o2ul_token_name")
           (BytesToHash (bytes_of_string "Orbis Omnira Unitas Lex"));;
  SetState O2ULTokenSystemAddress (HexToHash "o2ul_token_symbol")
           (BytesToHash (bytes_of_string "O2UL"));;
  SetState O2ULTokenSystemAddress (HexToHash "o2ul_token_decimals")
           (BytesToHash (Bytes 18));;
  founderBalance ← GetBalance founder;
  reserveBalance ← GetBalance reserve;
  mret tt.
End GenesisTokens.

(** More sample data. *)
Definition sampleUnavailable : UltraStableManager :=
  mkManager (mkBlockChain (Some "database closed") sampleGenesis) 0 [] [] [].

(** A contraction by 3,000,000 x 10^18 that announces a resulting supply of
    5 x 10^18; the sample source accepts it. *)
Definition sampleExcessiveContraction : AdjustmentResult :=
  mkAdjustment seigniorage.Contraction (3000000 * 10 ^ 18) (50 * 10 ^ 18) (-120)
               (5 * 10 ^ 18) (1700000000 * 10 ^ 9 + 5).

(** The sample expansion, decided at second 3. *)
Definition sampleEarlyExpansion : AdjustmentResult :=
  mkAdjustment seigniorage.Expansion (10000 * 10 ^ 18) (50 * 10 ^ 18) 120
               (1010000 * 10 ^ 18) (3 * 10 ^ 9).

Definition sampleOther : Address := 0xcafe.

(** A decision source whose configured initial supply needs 257 bits. *)
Definition oversizedSource : Proprietary := {|
  GetLastUpdateTime := 0;
  CalculateSupplyAdjustment supply price volatility :=
    mkAdjustment seigniorage.None 0 0 0 supply 0;
  IsAdjustmentPossible a treasuryBalance minSupply := (true, "");
  GetTargetStableValue := 10 ^ 18;
  GetCurrentStableValue := 10 ^ 18;
  GetStableConfig := ultrastable.mkConfig two256 21600 [] [] []
|}.

Definition sampleFounder : Address := 0xf00d.
Definition sampleReserve : Address := 0xfeed.
(** * Properties *)

(** ** Where go-ethereum's key derivation puts the slot names *)

Section SlotNames.
Lemma HexToHash_range (s : string) : 0 <= common.HexToHash s < two256.
Proof. unfold common.HexToHash, BytesToHash. apply Z.mod_pos_bound. reflexivity. Qed.

Lemma append_assoc (a b c : string) : (a +:+ b) +:+ c = a +:+ (b +:+ c).
Proof.
  induction a as [|ch a IH]; [reflexivity|].
  change (String ch ((a +:+ b) +:+ c) = String ch (a +:+ (b +:+ c))).
  now rewrite IH.
Qed.

Lemma length_append (a b : string) :
  String.length (a +:+ b) = (String.length a + String.length b)%nat.
Proof.
  induction a as [|ch a IH]; [reflexivity|].
  change (S (String.length (a +:+ b)) = S (String.length a + String.length b)).
  now rewrite IH.
Qed.

Lemma recordKey_unfold (i : Z) (f : string) :
  recordKey i f = "adjustment_" +:+ (String_ i +:+ String "_" f).
Proof. unfold recordKey. now rewrite !append_assoc. Qed.

(** A name whose first character is no hexadecimal digit decodes to no byte
    at all: slot 0. *)
Lemma HexToHash_nonhex (c : ascii) (r : string) :
  common.fromHexChar c = Datatypes.None -> common.HexToHash (String c r) = 0.
Proof.
  intros Hc.
  assert (Ascii.eqb c "0" = false) as Hz.
  { destruct (Ascii.eqb_spec c "0") as [->|]; [discriminate Hc | reflexivity]. }
  unfold common.HexToHash, common.FromHex.
  assert (common.has0xPrefix (String c r) = false) as ->.
  { destruct r; [reflexivity|]. cbn [common.has0xPrefix]. now rewrite Hz. }
  assert (forall t, fst (common.DecodeString (String "0" (String c t))) = []) as Hodd.
  { intros t. cbn [common.DecodeString]. rewrite Hc.
    destruct (common.fromHexChar "0"); reflexivity. }
  destruct r as [|q r].
  - change (Nat.odd (String.length (String c ""))) with true. cbv beta iota zeta.
    unfold common.Hex2Bytes.
    change ("0" +:+ String c "") with (String "0" (String c "")).
    now rewrite Hodd.
  - destruct (Nat.odd (String.length (String c (String q r)))).
    + unfold common.Hex2Bytes.
      change ("0" +:+ String c (String q r)) with (String "0" (String c (String q r))).
      now rewrite Hodd.
    + unfold common.Hex2Bytes. cbn [common.DecodeString]. rewrite Hc. reflexivity.
Qed.

(** A name that starts with "adj" decodes to the one byte 0xad when its
    length is even and, a zero being put in front, to 0x0a when it is odd. *)
Lemma HexToHash_adj (r : string) :
  common.HexToHash (String "a" (String "d" (String "j" r)))
  = if Nat.odd (String.length (String "a" (String "d" (String "j" r)))) then 10 else 173.
Proof.
  unfold common.HexToHash, common.FromHex.
  change (common.has0xPrefix (String "a" (String "d" (String "j" r)))) with false.
  cbv beta iota zeta.
  destruct (Nat.odd (String.length (String "a" (String "d" (String "j" r)))));
    destruct r; reflexivity.
Qed.

(** A name that starts with "co" decodes to no byte when its length is even
    and to the one byte 0x0c when it is odd. *)
Lemma HexToHash_co (r : string) :
  common.HexToHash (String "c" (String "o" r))
  = if Nat.odd (String.length (String "c" (String "o" r))) then 12 else 0.
Proof.
  unfold common.HexToHash, common.FromHex.
  change (common.has0xPrefix (String "c" (String "o" r))) with false.
  cbv beta iota zeta.
  destruct (Nat.odd (String.length (String "c" (String "o" r))));
    destruct r; reflexivity.
Qed.

Lemma recordKey_length_odd (i : Z) (f : string) :
  Nat.odd (String.length (recordKey i f)) = xorb (oddDigits i) (Nat.odd (String.length f)).
Proof.
  rewrite recordKey_unfold, !length_append. unfold oddDigits.
  change (String.length "adjustment_") with 11%nat.
  change (String.length (String "_" f)) with (S (String.length f)).
  generalize (String.length (String_ i)) as d, (String.length f) as l. intros d l.
  replace (11 + (d + S l))%nat with (d + l + 12)%nat by lia.
  rewrite (Nat.odd_add (d + l) 12), Nat.odd_add.
  change (Nat.odd 12) with false. apply xorb_false_r.
Qed.

(** Every field of every history record lands on slot 0x0a or slot 0xad,
    according to the parity of the length of its name. *)
Lemma record_slot (i : Z) (f : string) :
  common.HexToHash (recordKey i f)
  = if xorb (oddDigits i) (Nat.odd (String.length f)) then 10 else 173.
Proof.
  rewrite <- recordKey_length_odd.
  rewrite recordKey_unfold at 1.
  change ("adjustment_" +:+ (String_ i +:+ String "_" f))
    with (String "a" (String "d" (String "j" ("ustment_" +:+ (String_ i +:+ String "_" f))))).
  rewrite HexToHash_adj.
  change (String "a" (String "d" (String "j" ("ustment_" +:+ (String_ i +:+ String "_" f)))))
    with ("adjustment_" +:+ (String_ i +:+ String "_" f)).
  now rewrite <- recordKey_unfold.
Qed.

(** The type, the two amounts and the announced supply of a record share one
    slot, its deviation and its time stamp share the other. *)
Lemma slot_type (i : Z) :
  common.HexToHash (recordKey i "type") = if oddDigits i then 10 else 173.
Proof. rewrite record_slot. now destruct (oddDigits i). Qed.

Lemma slot_amount (i : Z) :
  common.HexToHash (recordKey i "amount") = if oddDigits i then 10 else 173.
Proof. rewrite record_slot. now destruct (oddDigits i). Qed.

Lemma slot_value_tokens (i : Z) :
  common.HexToHash (recordKey i "value_tokens") = if oddDigits i then 10 else 173.
Proof. rewrite record_slot. now destruct (oddDigits i). Qed.

Lemma slot_new_supply (i : Z) :
  common.HexToHash (recordKey i "new_supply") = if oddDigits i then 10 else 173.
Proof. rewrite record_slot. now destruct (oddDigits i). Qed.

Lemma slot_deviation (i : Z) :
  common.HexToHash (recordKey i "deviation") = if oddDigits i then 173 else 10.
Proof. rewrite record_slot. now destruct (oddDigits i). Qed.

Lemma slot_timestamp (i : Z) :
  common.HexToHash (recordKey i "timestamp") = if oddDigits i then 173 else 10.
Proof. rewrite record_slot. now destruct (oddDigits i). Qed.

(** The history count lives on slot 0xad as well. *)
Lemma slot_count : common.HexToHash "adjustment_history_count" = 173.
Proof. reflexivity. Qed.

(** The supply, the minimum supply, the volatility and the three status words
    all live on slot 0. *)
Lemma slot_current_supply : common.HexToHash "ultrastable_current_supply" = 0.
Proof. reflexivity. Qed.

Lemma slot_minimum_supply : common.HexToHash "ultrastable_minimum_supply" = 0.
Proof. reflexivity. Qed.

Lemma slot_volatility : common.HexToHash "market_volatility" = 0.
Proof. reflexivity. Qed.

Lemma slot_target_value : common.HexToHash "ultrastable_target_value" = 0.
Proof. reflexivity. Qed.

Lemma slot_current_value : common.HexToHash "ultrastable_current_value" = 0.
Proof. reflexivity. Qed.

Lemma slot_last_update_time : common.HexToHash "ultrastable_last_update_time" = 0.
Proof. reflexivity. Qed.

Lemma slot_price : common.HexToHash "value_token_price" = 0.
Proof. reflexivity. Qed.
End SlotNames.

(** ** Reading the ledger after a write *)

Section LedgerLemmas.
Lemma readState_writeState_eq s a k v : readState (writeState a k v s) a k = v.
Proof. unfold readState, writeState. cbn. now rewrite lookup_insert_eq. Qed.

Lemma readState_writeState_ne s a k v a' k' :
  (a, k) <> (a', k') -> readState (writeState a k v s) a' k' = readState s a' k'.
Proof. intros Hne. unfold readState, writeState. cbn. now rewrite lookup_insert_ne. Qed.

Lemma readState_writeBalance s t v a k :
  readState (writeBalance t v s) a k = readState s a k.
Proof. reflexivity. Qed.

Lemma readBalance_writeState s a k v t :
  readBalance (writeState a k v s) t = readBalance s t.
Proof. reflexivity. Qed.

Lemma readBalance_writeBalance_eq s t v : readBalance (writeBalance t v s) t = v.
Proof. unfold readBalance, writeBalance. cbn. now rewrite lookup_insert_eq. Qed.

Lemma readBalance_writeBalance_ne s t v t' :
  t <> t' -> readBalance (writeBalance t v s) t' = readBalance s t'.
Proof. intros Hne. unfold readBalance, writeBalance. cbn. now rewrite lookup_insert_ne. Qed.

Lemma BytesToHash_small (x : Z) : 0 <= x < two256 -> BytesToHash (Bytes x) = x.
Proof.
  intros Hx. unfold BytesToHash, Bytes.
  rewrite Z.abs_eq by lia. now apply Z.mod_small.
Qed.
End LedgerLemmas.

(** ** The control flow of [ApplySupplyAdjustment] *)

Section Control.
Variable HexToHash : string -> Hash.
Context {proprietary : Proprietary}.

Local Abbreviation Apply := (ApplySupplyAdjustment HexToHash).

Ltac run_monad :=
  cbv [mbind M_bind mret M_ret blockchain_State statedb GetState GetBalance SetState
       AddBalance SubBalance modify log adjustFeed_Send updateFeed_Send
       set_lastUpdateTime State get updateAdjustmentHistory
       blockchain ledger stateErr lastUpdateTime updateFeed adjustFeed logged
       fst snd nil errors_New SetBytes].

Lemma updateAdjustmentHistory_run (a : AdjustmentResult) (m : UltraStableManager) :
  stateErr (blockchain m) = nil ->
  updateAdjustmentHistory HexToHash a m =
  (tt, mkManager (mkBlockChain nil (journalAppend HexToHash a (ledgerOf m)))
                 (lastUpdateTime m) (updateFeed m) (adjustFeed m)
                 (logged m ++ [(LvlDebug, "Updated adjustment history")])).
Proof.
  destruct m as [[e s] lt uf af lg]. cbn. intros ->. reflexivity.
Qed.

Lemma Apply_none (a : AdjustmentResult) t m :
  Type_ a = seigniorage.None -> Apply a t m = (nil, m).
Proof.
  intros Hn. unfold ApplySupplyAdjustment. now rewrite decide_True.
Qed.

Ltac enter_apply m He :=
  unfold ApplySupplyAdjustment; rewrite decide_False by assumption;
  destruct m as [[e' s] lt uf af lg];
  cbn [blockchain stateErr] in He; subst e';
  cbn [ledgerOf blockchain ledger] in *.

Lemma Apply_state_error (a : AdjustmentResult) t m e :
  Type_ a <> seigniorage.None -> stateErr (blockchain m) = Some e ->
  Apply a t m = (Some e, m).
Proof. intros Hn He. enter_apply m He. reflexivity. Qed.

Lemma Apply_infeasible (a : AdjustmentResult) t m :
  Type_ a <> seigniorage.None -> stateErr (blockchain m) = nil ->
  feasible HexToHash a t (ledgerOf m) = false ->
  Apply a t m =
  (nil, mkManager (blockchain m) (lastUpdateTime m) (updateFeed m) (adjustFeed m)
                  (logged m ++ [(LvlWarn, "Supply adjustment not possible")])).
Proof.
  intros Hn He Hf. enter_apply m He.
  unfold feasible, minimumSupply, SetBytes in Hf. run_monad.
  destruct (IsAdjustmentPossible _ _ _) as [possible reason].
  cbn [fst] in Hf. subst possible. reflexivity.
Qed.

Lemma Apply_overflow (a : AdjustmentResult) t m :
  Type_ a <> seigniorage.None -> stateErr (blockchain m) = nil ->
  feasible HexToHash a t (ledgerOf m) = true -> fits256 a = false ->
  Apply a t m = (errors_New "value token amount overflow", m).
Proof.
  intros Hn He Hf Ho. enter_apply m He.
  unfold feasible, minimumSupply, SetBytes in Hf.
  unfold fits256 in Ho. apply negb_false_iff in Ho.
  destruct (FromBig (ValueTokens a)) as [v o]. cbn [snd] in Ho. subst o.
  run_monad.
  destruct (IsAdjustmentPossible _ _ _) as [possible reason].
  cbn [fst] in Hf. subst possible.
  destruct (Type_ a); [congruence| |]; reflexivity.
Qed.

Lemma Apply_applied (a : AdjustmentResult) t m :
  applied HexToHash a t m = true ->
  Apply a t m =
  (nil, mkManager
          (mkBlockChain nil
             (journalAppend HexToHash a (settle HexToHash a t (ledgerOf m))))
          (lastUpdateTime m) (updateFeed m) (adjustFeed m ++ [a])
          (logged m ++ appliedLog a)).
Proof.
  unfold applied. rewrite !andb_true_iff, !bool_decide_eq_true.
  intros [[[Hn He] Hf] Ho]. enter_apply m He.
  unfold feasible, minimumSupply, SetBytes in Hf.
  unfold fits256 in Ho. apply negb_true_iff in Ho.
  unfold settle, appliedLog, journalAppend.
  destruct (FromBig (ValueTokens a)) as [v o]. cbn [snd] in Ho. subst o.
  run_monad.
  destruct (IsAdjustmentPossible _ _ _) as [possible reason].
  cbn [fst] in Hf. subst possible.
  destruct (Type_ a) eqn:Ht; [congruence| |];
    cbv beta iota zeta delta [negb];
    (f_equal; f_equal; first [reflexivity | symmetry; apply app_assoc]).
Qed.
End Control.

(** ** Reading numbered slots *)

(** Put every slot name of the manager on its slot. *)
Ltac on_slots :=
  rewrite ?slot_type, ?slot_amount, ?slot_value_tokens, ?slot_deviation,
    ?slot_new_supply, ?slot_timestamp, ?slot_count, ?slot_current_supply,
    ?slot_minimum_supply, ?slot_volatility, ?slot_target_value, ?slot_current_value,
    ?slot_last_update_time, ?slot_price.

(** Read a numbered slot through a chain of writes to numbered slots. *)
Ltac read_slots :=
  repeat first
    [ rewrite readState_writeState_eq
    | rewrite readState_writeState_ne by (intros E; discriminate E)
    | rewrite readState_writeBalance
    | rewrite readBalance_writeState ].

(** ** The claims about a single call of [ApplySupplyAdjustment], for every
       key derivation *)

Section Calls.
Variable HexToHash : string -> Hash.
Context {proprietary : Proprietary}.

Import params.
Local Abbreviation Apply := (ApplySupplyAdjustment HexToHash).

(** C5: a decision of kind [None] makes [ApplySupplyAdjustment] return [nil]
    at once and leaves the manager exactly as it was: no balance, no storage
    slot (so neither the supply counter nor the history count or any record),
    no feed and no log entry changes. *)
Theorem apply_none_changes_nothing (a : AdjustmentResult) (t : Address)
        (m : UltraStableManager) :
  Type_ a = seigniorage.None -> Apply a t m = (nil, m).
Proof. apply Apply_none. Qed.

(** C7 as the code has it: a decision other than [None] that the feasibility
    check rejects leaves the ledger and both feeds untouched and returns
    [nil], the very value an applied adjustment returns; the only trace of
    the skip is one warning in the log. *)
Theorem infeasible_returns_nil (a : AdjustmentResult) (t : Address)
        (m : UltraStableManager) :
  Type_ a <> seigniorage.None ->
  stateErr (blockchain m) = nil ->
  feasible HexToHash a t (ledgerOf m) = false ->
  eval (Apply a t) m = nil
  /\ ledgerOf (exec (Apply a t) m) = ledgerOf m
  /\ updateFeed (exec (Apply a t) m) = updateFeed m
  /\ adjustFeed (exec (Apply a t) m) = adjustFeed m
  /\ logged (exec (Apply a t) m)
     = (logged m ++ [(LvlWarn, "Supply adjustment not possible")])%list.
Proof.
  intros Hn He Hf. unfold eval, exec.
  rewrite Apply_infeasible by assumption. cbn. repeat split; reflexivity.
Qed.

(** Every call that is not applied leaves the ledger and the adjustment feed
    as they were. *)
Lemma not_applied_frame (a : AdjustmentResult) (t : Address) (m : UltraStableManager) :
  applied HexToHash a t m = false ->
  ledgerOf (exec (Apply a t) m) = ledgerOf m
  /\ adjustFeed (exec (Apply a t) m) = adjustFeed m.
Proof.
  unfold applied, exec. intros Hna.
  destruct (decide (Type_ a = seigniorage.None)) as [Hn|Hn].
  { now rewrite Apply_none. }
  destruct (stateErr (blockchain m)) as [e|] eqn:He.
  { now rewrite (Apply_state_error _ _ _ _ e). }
  destruct (feasible HexToHash a t (ledgerOf m)) eqn:Hf.
  - destruct (fits256 a) eqn:Ho.
    + exfalso. rewrite bool_decide_eq_true_2 in Hna by assumption.
      rewrite bool_decide_eq_true_2 in Hna by reflexivity. discriminate Hna.
    + now rewrite Apply_overflow.
  - now rewrite Apply_infeasible.
Qed.

(** C6 as the code has it: when the counterpart amount does not fit 256 bits
    the ledger and the adjustment feed are never touched, whatever the kind
    of the decision; the overflow error is what the call returns once the
    decision is not [None], the ledger is available and the feasibility check
    has accepted it, in the expansion branch and in the contraction branch
    alike. *)
Theorem overflow_detected_before_mutation (a : AdjustmentResult) (t : Address)
        (m : UltraStableManager) :
  fits256 a = false ->
  ledgerOf (exec (Apply a t) m) = ledgerOf m
  /\ adjustFeed (exec (Apply a t) m) = adjustFeed m
  /\ (Type_ a <> seigniorage.None ->
      stateErr (blockchain m) = nil ->
      feasible HexToHash a t (ledgerOf m) = true ->
      Apply a t m = (errors_New "value token amount overflow", m)).
Proof.
  intros Ho. split; [|split].
  - apply not_applied_frame. unfold applied. rewrite Ho. apply andb_false_r.
  - apply not_applied_frame. unfold applied. rewrite Ho. apply andb_false_r.
  - intros Hn He Hf. now apply Apply_overflow.
Qed.

Lemma FromBig_small (v : Z) : 0 <= v < two256 -> fst (FromBig v) = v.
Proof. intros Hv. unfold FromBig. cbn [fst]. now apply Z.mod_small. Qed.

Lemma applied_ledger (a : AdjustmentResult) (t : Address) (m : UltraStableManager) :
  applied HexToHash a t m = true ->
  ledgerOf (exec (Apply a t) m)
  = journalAppend HexToHash a (settle HexToHash a t (ledgerOf m)).
Proof. intros Ha. unfold exec. now rewrite Apply_applied. Qed.

Lemma applied_returns_nil (a : AdjustmentResult) (t : Address) (m : UltraStableManager) :
  applied HexToHash a t m = true -> eval (Apply a t) m = nil.
Proof. intros Ha. unfold eval. now rewrite Apply_applied. Qed.

(** The journal writes change no balance. *)
Lemma journalAppend_balance (a : AdjustmentResult) (s : StateDB) (t : Address) :
  readBalance (journalAppend HexToHash a s) t = readBalance s t.
Proof. reflexivity. Qed.

(** The supply word and the treasury balance right after the two writes of a
    branch of [ApplySupplyAdjustment]. *)
Lemma settle_supply (a : AdjustmentResult) (t : Address) (s : StateDB) :
  currentSupply HexToHash (settle HexToHash a t s) =
  match Type_ a with
  | seigniorage.Expansion => BytesToHash (Bytes (currentSupply HexToHash s + Amount a))
  | seigniorage.Contraction => BytesToHash (Bytes (currentSupply HexToHash s - Amount a))
  | seigniorage.None => currentSupply HexToHash s
  end.
Proof.
  unfold settle. cbv zeta. destruct (Type_ a); [reflexivity| |];
    unfold currentSupply at 1, SetBytes; now rewrite readState_writeState_eq.
Qed.

Lemma settle_balance (a : AdjustmentResult) (t : Address) (s : StateDB) :
  readBalance (settle HexToHash a t s) t =
  match Type_ a with
  | seigniorage.Expansion => (readBalance s t - fst (FromBig (ValueTokens a))) mod two256
  | seigniorage.Contraction => (readBalance s t + fst (FromBig (ValueTokens a))) mod two256
  | seigniorage.None => readBalance s t
  end.
Proof.
  unfold settle. cbv zeta. destruct (Type_ a); [reflexivity| |];
    now rewrite readBalance_writeState, readBalance_writeBalance_eq.
Qed.
End Calls.

(** ** The journal and the supply counter on go-ethereum's slots *)

Section Slots.
Context {proprietary : Proprietary}.

Import params.
Local Abbreviation Apply := (ApplySupplyAdjustment common.HexToHash).

(** What [updateAdjustmentHistory] leaves behind: its seven writes go to two
    slots, and the last write to each of them wins.  For a count with an odd
    number of digits the announced supply ends up on slot 0x0a and the time
    stamp on slot 0xad, for an even number the other way round. *)
Lemma journalAppend_slots (a : AdjustmentResult) (s : StateDB) :
  let count := historyCount common.HexToHash s in
  let supplyWord := BytesToHash (Bytes (NewSupply a)) in
  let timeWord := BytesToHash (Bytes (Unix (Timestamp a))) in
  readState (journalAppend common.HexToHash a s) UltraStableTokenSystemAddress 10
  = (if oddDigits count then supplyWord else timeWord)
  /\ readState (journalAppend common.HexToHash a s) UltraStableTokenSystemAddress 173
     = (if oddDigits count then timeWord else supplyWord)
  /\ (forall addr key,
        (addr, key) <> (UltraStableTokenSystemAddress, 10) ->
        (addr, key) <> (UltraStableTokenSystemAddress, 173) ->
        readState (journalAppend common.HexToHash a s) addr key = readState s addr key).
Proof.
  cbv zeta. unfold journalAppend. cbv zeta. on_slots.
  destruct (oddDigits (historyCount common.HexToHash s)).
  - split; [now read_slots|]. split; [now read_slots|].
    intros addr key H10 H173.
    repeat rewrite readState_writeState_ne
      by (intros E; symmetry in E; first [exact (H10 E) | exact (H173 E)]).
    reflexivity.
  - split; [now read_slots|]. split; [now read_slots|].
    intros addr key H10 H173.
    repeat rewrite readState_writeState_ne
      by (intros E; symmetry in E; first [exact (H10 E) | exact (H173 E)]).
    reflexivity.
Qed.

(** The history count after an append is not the count before plus one: the
    count shares slot 0xad with record words that are written after it. *)
Lemma journalAppend_count (a : AdjustmentResult) (s : StateDB) :
  historyCount common.HexToHash (journalAppend common.HexToHash a s)
  = if oddDigits (historyCount common.HexToHash s)
    then BytesToHash (Bytes (Unix (Timestamp a)))
    else BytesToHash (Bytes (NewSupply a)).
Proof.
  destruct (journalAppend_slots a s) as (_ & H173 & _).
  unfold historyCount at 1, SetBytes. rewrite slot_count. exact H173.
Qed.

(** Any field of any record after an append. *)
Lemma journalAppend_word (a : AdjustmentResult) (s : StateDB) (j : Z) (f : string) :
  recordWord common.HexToHash (journalAppend common.HexToHash a s) j f
  = if Bool.eqb (xorb (oddDigits j) (Nat.odd (String.length f)))
                (oddDigits (historyCount common.HexToHash s))
    then BytesToHash (Bytes (NewSupply a))
    else BytesToHash (Bytes (Unix (Timestamp a))).
Proof.
  destruct (journalAppend_slots a s) as (H10 & H173 & _).
  unfold recordWord. rewrite record_slot.
  destruct (xorb (oddDigits j) (Nat.odd (String.length f)));
    [rewrite H10 | rewrite H173];
    now destruct (oddDigits (historyCount common.HexToHash s)).
Qed.

Lemma journalAppend_record (a : AdjustmentResult) (s : StateDB) (j : Z) :
  let supplyWord := BytesToHash (Bytes (NewSupply a)) in
  let timeWord := BytesToHash (Bytes (Unix (Timestamp a))) in
  storedRecord common.HexToHash (journalAppend common.HexToHash a s) j
  = if Bool.eqb (oddDigits j) (oddDigits (historyCount common.HexToHash s))
    then [supplyWord; supplyWord; supplyWord; timeWord; supplyWord; timeWord]
    else [timeWord; timeWord; timeWord; supplyWord; timeWord; supplyWord].
Proof.
  cbv zeta. unfold storedRecord, recordFields. cbn [map].
  rewrite !journalAppend_word.
  change (Nat.odd (String.length "type")) with false.
  change (Nat.odd (String.length "amount")) with false.
  change (Nat.odd (String.length "value_tokens")) with false.
  change (Nat.odd (String.length "deviation")) with true.
  change (Nat.odd (String.length "new_supply")) with false.
  change (Nat.odd (String.length "timestamp")) with true.
  now destruct (oddDigits j), (oddDigits (historyCount common.HexToHash s)).
Qed.

(** The journal writes never reach slot 0, where the supply lives. *)
Lemma journalAppend_supply (a : AdjustmentResult) (s : StateDB) :
  currentSupply common.HexToHash (journalAppend common.HexToHash a s)
  = currentSupply common.HexToHash s.
Proof.
  destruct (journalAppend_slots a s) as (_ & _ & Hother).
  unfold currentSupply. rewrite slot_current_supply.
  now rewrite Hother by (intros E; discriminate E).
Qed.

(** The supply write never reaches the two slots of the journal. *)
Lemma settle_count (a : AdjustmentResult) (t : Address) (s : StateDB) :
  historyCount common.HexToHash (settle common.HexToHash a t s)
  = historyCount common.HexToHash s.
Proof.
  unfold settle, historyCount. cbv zeta. on_slots.
  destruct (Type_ a); now read_slots.
Qed.

Lemma settle_word (a : AdjustmentResult) (t : Address) (s : StateDB) (j : Z) (f : string) :
  recordWord common.HexToHash (settle common.HexToHash a t s) j f
  = recordWord common.HexToHash s j f.
Proof.
  unfold settle, recordWord. cbv zeta. rewrite record_slot, slot_current_supply.
  destruct (xorb (oddDigits j) (Nat.odd (String.length f))), (Type_ a); now read_slots.
Qed.
End Slots.

(** ** The claims about a single call, on the program's slots *)

Section ProgramCalls.
Context {proprietary : Proprietary}.

Import params.
Local Abbreviation Apply := (ApplySupplyAdjustment common.HexToHash).

(** C2, on the program's slots: an expansion that is applied (not [None],
    ledger available, accepted by the feasibility check, counterpart within
    256 bits) returns [nil], raises the persisted supply by [supplyDelta]
    when the sum is a 32-byte word, and lowers the treasury balance by
    [counterpartAmount] when the treasury holds that much.  The history
    count, however, does not go up by one: it shares slot 0xad with words of
    the record written after it, and ends as the time stamp of the decision
    in seconds (count with an odd number of digits) or as its announced
    supply (even number). *)
Theorem expansion_adds_supply_burns_counterpart_overwrites_count
        (a : AdjustmentResult) (t : Address) (m : UltraStableManager) :
  applied common.HexToHash a t m = true ->
  Type_ a = seigniorage.Expansion ->
  let s := ledgerOf m in
  let s' := ledgerOf (exec (Apply a t) m) in
  eval (Apply a t) m = nil
  /\ (0 <= currentSupply common.HexToHash s + Amount a < two256 ->
      currentSupply common.HexToHash s' = currentSupply common.HexToHash s + Amount a)
  /\ (0 <= ValueTokens a <= readBalance s t ->
      readBalance s t < two256 ->
      readBalance s' t = readBalance s t - ValueTokens a)
  /\ historyCount common.HexToHash s'
     = (if oddDigits (historyCount common.HexToHash s)
        then BytesToHash (Bytes (Unix (Timestamp a)))
        else BytesToHash (Bytes (NewSupply a))).
Proof.
  intros Ha Ht s s'. unfold s', s. rewrite applied_ledger by assumption.
  split; [now apply applied_returns_nil|]. split; [|split].
  - intros Hs. rewrite journalAppend_supply, settle_supply, Ht.
    now apply BytesToHash_small.
  - intros Hv Hb. rewrite journalAppend_balance, settle_balance, Ht.
    rewrite FromBig_small by lia. apply Z.mod_small. lia.
  - now rewrite journalAppend_count, settle_count.
Qed.


(** C3 as the code has it: right after an applied call the slot named
    [adjustment_<count>_new_supply], for the history count before the call,
    holds the value announced in the incoming decision ([NewSupply], as a
    32-byte word); the supply counter is not read back. *)
Theorem history_record_keeps_announced_supply
        (a : AdjustmentResult) (t : Address) (m : UltraStableManager) :
  applied common.HexToHash a t m = true ->
  recordWord common.HexToHash (ledgerOf (exec (Apply a t) m))
             (historyCount common.HexToHash (ledgerOf m)) "new_supply"
  = BytesToHash (Bytes (NewSupply a)).
Proof.
  intros Ha. rewrite applied_ledger by assumption.
  rewrite journalAppend_word, settle_count.
  change (Nat.odd (String.length "new_supply")) with false.
  rewrite xorb_false_r.
  now destruct (oddDigits (historyCount common.HexToHash (ledgerOf m))).
Qed.

(** C8, on the program's slots: the journal is not append-only.  The six
    fields of every record and the history count live on the two slots 0x0a
    and 0xad, so an applied call leaves just two words in the journal, the
    announced supply and the time stamp in seconds of its decision.  The
    count becomes one of them instead of going up by one, and the record
    under every index, old or new, reads as a pattern of the two. *)
Theorem applied_call_overwrites_the_journal
        (a : AdjustmentResult) (t : Address) (m : UltraStableManager) :
  applied common.HexToHash a t m = true ->
  let count := historyCount common.HexToHash (ledgerOf m) in
  let s' := ledgerOf (exec (Apply a t) m) in
  let supplyWord := BytesToHash (Bytes (NewSupply a)) in
  let timeWord := BytesToHash (Bytes (Unix (Timestamp a))) in
  historyCount common.HexToHash s' = (if oddDigits count then timeWord else supplyWord)
  /\ (forall j : Z,
        storedRecord common.HexToHash s' j
        = if Bool.eqb (oddDigits j) (oddDigits count)
          then [supplyWord; supplyWord; supplyWord; timeWord; supplyWord; timeWord]
          else [timeWord; timeWord; timeWord; supplyWord; timeWord; supplyWord]).
Proof.
  intros Ha. cbv zeta. rewrite applied_ledger by assumption. split.
  - now rewrite journalAppend_count, settle_count.
  - intros j. pose proof (journalAppend_record a (settle common.HexToHash a t (ledgerOf m)) j)
      as Hr.
    cbv zeta in Hr. now rewrite settle_count in Hr.
Qed.
End ProgramCalls.

(** ** The periodic path, for every key derivation *)

Section Scheduler.
Variable HexToHash : string -> Hash.
Context {proprietary : Proprietary}.

Import params.

Lemma ProcessUpdate_run (now now' : Time) (m : UltraStableManager) :
  stateErr (blockchain m) = nil ->
  ProcessUpdate HexToHash now now' m =
  (tt, mkManager (mkBlockChain nil (statusWrites HexToHash now (ledgerOf m)))
                 now' (updateFeed m ++ [decisionFor HexToHash (ledgerOf m)])
                 (adjustFeed m)
                 (logged m ++ [(LvlInfo, "Processed UltraStable update")])).
Proof.
  destruct m as [[e s] lt uf af lg]. cbn [blockchain stateErr]. intros ->.
  reflexivity.
Qed.

Lemma checkForUpdates_run (now now' : Time) (m : UltraStableManager) :
  After GetLastUpdateTime (lastUpdateTime m) = true ->
  stateErr (blockchain m) = nil ->
  checkForUpdates HexToHash now now' m =
  (tt, mkManager (mkBlockChain nil (statusWrites HexToHash now (ledgerOf m)))
                 now' (updateFeed m ++ [decisionFor HexToHash (ledgerOf m)])
                 (adjustFeed m)
                 (logged m ++ [(LvlInfo, "New UltraStable data available, triggering update");
                               (LvlInfo, "Processed UltraStable update")])).
Proof.
  intros Hnew He. unfold checkForUpdates.
  cbv [mbind M_bind get]. rewrite Hnew.
  cbv [log modify]. rewrite ProcessUpdate_run by assumption.
  destruct m as [[e s] lt uf af lg]. cbn. now rewrite <- app_assoc.
Qed.

(** C10: when the stored [value_token_price] word is zero, the decision that
    [ProcessUpdate] publishes is the one the decision source computes for the
    reference price 10^18; for any other stored word it is the one computed
    for that very word.  The other two arguments are the stored supply and
    the stored volatility reduced to a byte. *)
Theorem ProcessUpdate_defaults_zero_price (now now' : Time) (m : UltraStableManager) :
  stateErr (blockchain m) = nil ->
  let s := ledgerOf m in
  let stored := SetBytes (readState s O2ULTokenSystemAddress
                            (HexToHash "value_token_price")) in
  let supply := currentSupply HexToHash s in
  let volatility := uint8 (Uint64 (SetBytes (readState s UltraStableTokenSystemAddress
                                               (HexToHash "market_volatility")))) in
  (stored = 0 ->
     updateFeed (exec (ProcessUpdate HexToHash now now') m)
     = (updateFeed m ++ [CalculateSupplyAdjustment supply (10 ^ 18) volatility])%list)
  /\ (stored <> 0 ->
      updateFeed (exec (ProcessUpdate HexToHash now now') m)
      = (updateFeed m ++ [CalculateSupplyAdjustment supply stored volatility])%list).
Proof.
  intros He s stored supply volatility. unfold exec.
  rewrite ProcessUpdate_run by assumption. cbn [snd updateFeed].
  unfold decisionFor. fold s. fold stored. split.
  - intros ->. reflexivity.
  - intros Hnz. apply Z.eqb_neq in Hnz. now rewrite Hnz.
Qed.
End Scheduler.

(** ** The periodic path on the program's slots *)

Section ProgramScheduler.
Context {proprietary : Proprietary}.

Import params.

(** C4 as the code has it: on a tick at which the decision source reports
    newer data and the ledger is available, the decision is computed from the
    ledger and published on the update feed, and the local time stamp is set.
    The decision is not handed to [ApplySupplyAdjustment]: nothing is sent on
    the adjustment feed, no balance changes, and the history count and every
    history record stay as they were. *)
Theorem tick_publishes_decision_without_applying
        (now now' : Time) (m : UltraStableManager) :
  After GetLastUpdateTime (lastUpdateTime m) = true ->
  stateErr (blockchain m) = nil ->
  let m' := exec (checkForUpdates common.HexToHash now now') m in
  updateFeed m' = (updateFeed m ++ [decisionFor common.HexToHash (ledgerOf m)])%list
  /\ lastUpdateTime m' = now'
  /\ adjustFeed m' = adjustFeed m
  /\ (forall t, readBalance (ledgerOf m') t = readBalance (ledgerOf m) t)
  /\ historyCount common.HexToHash (ledgerOf m') = historyCount common.HexToHash (ledgerOf m)
  /\ (forall i f,
        recordWord common.HexToHash (ledgerOf m') i f
        = recordWord common.HexToHash (ledgerOf m) i f).
Proof.
  intros Hnew He. cbv zeta. unfold exec. rewrite checkForUpdates_run by assumption.
  cbn [snd updateFeed adjustFeed lastUpdateTime ledgerOf blockchain ledger].
  do 3 (split; [reflexivity|]). split; [|split].
  - intros t. unfold statusWrites. now rewrite !readBalance_writeState.
  - unfold statusWrites, historyCount. on_slots. now read_slots.
  - intros i f. unfold statusWrites, recordWord. rewrite record_slot. on_slots.
    destruct (xorb (oddDigits i) (Nat.odd (String.length f))); now read_slots.
Qed.
End ProgramScheduler.

(** ** Retrieval of the history *)

Section Retrieval.
Variable HexToHash : string -> Hash.
Context {proprietary : Proprietary}.

Import params.

Lemma wrap64_small (x : Z) : (- 2 ^ 63) <= x < 2 ^ 63 -> wrap64 x = x.
Proof. intros Hx. unfold wrap64. rewrite Z.mod_small; lia. Qed.

(** Reading an entry leaves the ledger alone. *)
Lemma fetchEntry_reads (i : Z) (s : StateDB) :
  fetchEntry HexToHash i s = (eval (fetchEntry HexToHash i) s, s).
Proof. reflexivity. Qed.

Lemma fetchLoop_run (steps : nat) :
  forall (i count : Z) (acc : list AdjustmentResult) (s : StateDB),
    i + Z.of_nat steps = count ->
    fetchLoop HexToHash steps i count acc s
    = ((acc ++ map (fun j => eval (fetchEntry HexToHash j) s) (seqZ i (Z.of_nat steps)))%list,
       s).
Proof.
  induction steps as [|steps IH]; intros i count acc s Hsteps.
  - cbn. now rewrite app_nil_r.
  - cbn [fetchLoop].
    assert ((i <? count) = true) as -> by (apply Z.ltb_lt; lia).
    cbv [mbind M_bind]. rewrite fetchEntry_reads.
    rewrite IH by lia.
    rewrite (seqZ_cons i (Z.of_nat (S steps))) by lia.
    replace (Z.pred (Z.of_nat (S steps))) with (Z.of_nat steps) by lia.
    cbn [map]. now rewrite <- app_assoc.
Qed.



(** The run of [GetAdjustmentHistory] on an available ledger, for a request
    and a count within range. *)
Lemma GetAdjustmentHistory_window (n : Z) (m : UltraStableManager) :
  stateErr (blockchain m) = nil ->
  0 <= n < 2 ^ 63 ->
  0 <= historyCount HexToHash (ledgerOf m) < 2 ^ 63 ->
  GetAdjustmentHistory HexToHash n m
  = (map (storedEntry HexToHash (ledgerOf m))
         (seqZ (Z.max 0 (historyCount HexToHash (ledgerOf m) - n))
               (Z.min n (historyCount HexToHash (ledgerOf m)))), m).
Proof.
  intros He Hn Hc. set (count := historyCount HexToHash (ledgerOf m)) in *.
  destruct m as [[e s] lt uf af lg]. cbn [blockchain stateErr] in He. subst e.
  cbn [ledgerOf blockchain ledger] in *.
  unfold GetAdjustmentHistory.
  cbv [mbind M_bind mret M_ret blockchain_State statedb GetState State
       blockchain ledger stateErr lastUpdateTime updateFeed adjustFeed logged
       fst snd nil Int64].
  change (SetBytes (readState s UltraStableTokenSystemAddress
                      (HexToHash "adjustment_history_count"))) with count.
  rewrite (wrap64_small count) by lia.
  rewrite (wrap64_small n) by lia.
  rewrite (wrap64_small (count - n)) by lia.
  destruct (Z.ltb_spec (count - n) 0) as [Hlt|Hge].
  - rewrite (fetchLoop_run _ 0 count) by lia.
    replace (Z.max 0 (count - n)) with 0 by lia.
    replace (Z.of_nat (Z.to_nat (count - 0))) with (Z.min n count) by lia.
    reflexivity.
  - rewrite (fetchLoop_run _ (count - n) count) by lia.
    replace (Z.max 0 (count - n)) with (count - n) by lia.
    replace (Z.of_nat (Z.to_nat (count - (count - n)))) with (Z.min n count) by lia.
    reflexivity.
Qed.

End Retrieval.

(** ** The theorems at work on the sample ledgers *)

Lemma apply_none_changes_nothing_witness :
  ApplySupplyAdjustment common.HexToHash sampleNone sampleTreasury sampleManager
  = (nil, sampleManager).
Proof.
  apply (apply_none_changes_nothing common.HexToHash sampleNone sampleTreasury sampleManager).
  reflexivity.
Defined.

(** The scenario of the specification: supply 1,000,000 x 10^18, treasury
    500 x 10^18, expansion by 10,000 x 10^18 against 50 x 10^18, decided at
    second 1,700,000,000.  Supply and treasury end as the specification says;
    the history count reads 1,700,000,000. *)
Lemma expansion_scenario_witness :
  currentSupply common.HexToHash (ledgerOf sampleScenario) = 1000000 * 10 ^ 18
  /\ readBalance (ledgerOf sampleScenario) sampleTreasury = 500 * 10 ^ 18
  /\ historyCount common.HexToHash (ledgerOf sampleScenario) = 0
  /\ eval (ApplySupplyAdjustment common.HexToHash sampleExpansion sampleTreasury)
          sampleScenario = nil
  /\ currentSupply common.HexToHash
       (ledgerOf (exec (ApplySupplyAdjustment common.HexToHash sampleExpansion sampleTreasury)
                       sampleScenario))
     = 1010000 * 10 ^ 18
  /\ readBalance
       (ledgerOf (exec (ApplySupplyAdjustment common.HexToHash sampleExpansion sampleTreasury)
                       sampleScenario)) sampleTreasury
     = 450 * 10 ^ 18
  /\ historyCount common.HexToHash
       (ledgerOf (exec (ApplySupplyAdjustment common.HexToHash sampleExpansion sampleTreasury)
                       sampleScenario))
     = 1700000000.
Proof.
  assert (currentSupply common.HexToHash (ledgerOf sampleScenario) = 1000000 * 10 ^ 18) as Hs0
    by (vm_compute; reflexivity).
  assert (readBalance (ledgerOf sampleScenario) sampleTreasury = 500 * 10 ^ 18) as Hb0
    by (vm_compute; reflexivity).
  assert (historyCount common.HexToHash (ledgerOf sampleScenario) = 0) as Hc0
    by (vm_compute; reflexivity).
  assert (applied common.HexToHash sampleExpansion sampleTreasury sampleScenario = true) as Ha
    by (vm_compute; reflexivity).
  pose proof (expansion_adds_supply_burns_counterpart_overwrites_count
                sampleExpansion sampleTreasury sampleScenario Ha eq_refl) as Hx.
  cbv zeta in Hx. destruct Hx as (Hr & Hs & Hb & Hc).
  split; [exact Hs0|]. split; [exact Hb0|]. split; [exact Hc0|]. split; [exact Hr|].
  split; [|split].
  - rewrite Hs; rewrite Hs0; vm_compute;
      [reflexivity | split; [intros E; discriminate E | reflexivity]].
  - rewrite Hb; rewrite Hb0; vm_compute;
      [reflexivity | split; intros E; discriminate E | reflexivity].
  - rewrite Hc, Hc0. vm_compute. reflexivity.
Defined.


Lemma history_record_witness :
  applied common.HexToHash sampleMisreported sampleTreasury sampleManager = true
  /\ historyCount common.HexToHash (ledgerOf sampleManager) = 0
  /\ recordWord common.HexToHash
       (ledgerOf (exec (ApplySupplyAdjustment common.HexToHash sampleMisreported sampleTreasury)
                       sampleManager)) 0 "new_supply"
     = 7.
Proof.
  assert (applied common.HexToHash sampleMisreported sampleTreasury sampleManager = true)
    as Ha by (vm_compute; reflexivity).
  assert (historyCount common.HexToHash (ledgerOf sampleManager) = 0) as Hc
    by (vm_compute; reflexivity).
  split; [exact Ha|]. split; [exact Hc|].
  pose proof (history_record_keeps_announced_supply
                sampleMisreported sampleTreasury sampleManager Ha) as Hr.
  rewrite Hc in Hr. rewrite Hr. vm_compute. reflexivity.
Defined.

Lemma overflow_witness :
  fits256 sampleOversizedContraction = false
  /\ ApplySupplyAdjustment common.HexToHash sampleOversizedContraction sampleTreasury
                           sampleManager
     = (errors_New "value token amount overflow", sampleManager).
Proof.
  split; [vm_compute; reflexivity|].
  apply (overflow_detected_before_mutation
           common.HexToHash sampleOversizedContraction sampleTreasury sampleManager).
  - vm_compute. reflexivity.
  - discriminate.
  - reflexivity.
  - vm_compute. reflexivity.
Defined.

Lemma infeasible_witness :
  feasible common.HexToHash sampleUnaffordable sampleTreasury (ledgerOf sampleManager) = false
  /\ eval (ApplySupplyAdjustment common.HexToHash sampleUnaffordable sampleTreasury)
          sampleManager = nil
  /\ ledgerOf (exec (ApplySupplyAdjustment common.HexToHash sampleUnaffordable sampleTreasury)
                    sampleManager) = ledgerOf sampleManager.
Proof.
  split; [vm_compute; reflexivity|].
  assert (Type_ sampleUnaffordable <> seigniorage.None) as Hn by discriminate.
  assert (feasible common.HexToHash sampleUnaffordable sampleTreasury (ledgerOf sampleManager)
          = false) as Hf by (vm_compute; reflexivity).
  pose proof (infeasible_returns_nil
                common.HexToHash sampleUnaffordable sampleTreasury sampleManager
                Hn eq_refl Hf) as (Hr & Hl & _).
  split; assumption.
Defined.

Lemma tick_witness :
  After GetLastUpdateTime (lastUpdateTime sampleManager) = true
  /\ updateFeed sampleAfterTick = [decisionFor common.HexToHash (ledgerOf sampleManager)]
  /\ adjustFeed sampleAfterTick = []
  /\ readBalance (ledgerOf sampleAfterTick) sampleTreasury = 500 * 10 ^ 18
  /\ historyCount common.HexToHash (ledgerOf sampleAfterTick) = 0.
Proof.
  split; [vm_compute; reflexivity|].
  assert (After GetLastUpdateTime (lastUpdateTime sampleManager) = true) as Hnew
    by (vm_compute; reflexivity).
  pose proof (tick_publishes_decision_without_applying
                (1700000100 * 10 ^ 9) (1700000101 * 10 ^ 9) sampleManager Hnew eq_refl)
    as Ht.
  cbv zeta in Ht. destruct Ht as (Hu & _ & Ha & Hb & Hc & _).
  unfold sampleAfterTick.
  split; [exact Hu|]. split; [exact Ha|]. split.
  - rewrite Hb. vm_compute. reflexivity.
  - rewrite Hc. vm_compute. reflexivity.
Defined.

Lemma default_price_witness :
  stateErr (blockchain sampleManager) = nil
  /\ readState (ledgerOf sampleManager) params.O2ULTokenSystemAddress
               (common.HexToHash "value_token_price") = 0
  /\ updateFeed (exec (ProcessUpdate common.HexToHash 0 0) sampleManager)
     = [CalculateSupplyAdjustment 48879 (10 ^ 18) 239]
  /\ updateFeed (exec (ProcessUpdate common.HexToHash 0 0) samplePriced)
     = [CalculateSupplyAdjustment 48879 (2 * 10 ^ 18) 239].
Proof.
  split; [reflexivity|]. split; [vm_compute; reflexivity|]. split.
  - destruct (ProcessUpdate_defaults_zero_price common.HexToHash 0 0 sampleManager eq_refl)
      as [Hzero _].
    rewrite Hzero by (vm_compute; reflexivity). vm_compute. reflexivity.
  - destruct (ProcessUpdate_defaults_zero_price common.HexToHash 0 0 samplePriced eq_refl)
      as [_ Hset].
    rewrite Hset by (vm_compute; intros E; discriminate E). vm_compute. reflexivity.
Defined.


(** From genesis, an expansion and a contraction are applied (a decision of
    kind [None] between them changes nothing).  After the first the count
    reads 1,700,000,000 and not 1; after the second it reads 990,000 x 10^18
    and not 2, and the record under index 0 no longer holds a word of the
    first decision. *)
Lemma journal_overwritten_witness :
  historyCount common.HexToHash (ledgerOf sampleFresh) = 0
  /\ snd (applyAll common.HexToHash sampleCalls sampleFresh)
     = [sampleExpansion; sampleContraction]
  /\ historyCount common.HexToHash
       (ledgerOf (exec (ApplySupplyAdjustment common.HexToHash sampleExpansion sampleTreasury)
                       sampleFresh))
     = 1700000000
  /\ storedRecord common.HexToHash
       (ledgerOf (exec (ApplySupplyAdjustment common.HexToHash sampleExpansion sampleTreasury)
                       sampleFresh)) 0
     = [1010000 * 10 ^ 18; 1010000 * 10 ^ 18; 1010000 * 10 ^ 18; 1700000000;
        1010000 * 10 ^ 18; 1700000000]
  /\ recordOf sampleExpansion
     = [1; 10000 * 10 ^ 18; 50 * 10 ^ 18; 120; 1010000 * 10 ^ 18; 1700000000]
  /\ historyCount common.HexToHash (ledgerOf sampleAfterCalls) = 990000 * 10 ^ 18
  /\ storedRecord common.HexToHash (ledgerOf sampleAfterCalls) 0
     = [1700000000; 1700000000; 1700000000; 990000 * 10 ^ 18; 1700000000; 990000 * 10 ^ 18].
Proof.
  assert (historyCount common.HexToHash (ledgerOf sampleFresh) = 0) as Hc0
    by (vm_compute; reflexivity).
  assert (applied common.HexToHash sampleExpansion sampleTreasury sampleFresh = true) as Ha
    by (vm_compute; reflexivity).
  pose proof (applied_call_overwrites_the_journal
                sampleExpansion sampleTreasury sampleFresh Ha) as Hx.
  cbv zeta in Hx. destruct Hx as [Hc Hr].
  split; [exact Hc0|]. split; [vm_compute; reflexivity|].
  split; [rewrite Hc, Hc0; vm_compute; reflexivity|].
  split; [rewrite (Hr 0), Hc0; vm_compute; reflexivity|].
  split; [vm_compute; reflexivity|].
  split; vm_compute; reflexivity.
Defined.

(** ** Where the code departs from the specification *)


(** C3: after an applied expansion that announces a resulting supply of 7,
    the record holds 7 while the supply read back from the ledger is
    10,000 x 10^18 + 48879. *)
Lemma record_supply_is_not_read_back :
  applied common.HexToHash sampleMisreported sampleTreasury sampleManager = true
  /\ recordWord common.HexToHash
       (ledgerOf (exec (ApplySupplyAdjustment common.HexToHash sampleMisreported sampleTreasury)
                       sampleManager)) 0 "new_supply" = 7
  /\ currentSupply common.HexToHash
       (ledgerOf (exec (ApplySupplyAdjustment common.HexToHash sampleMisreported sampleTreasury)
                       sampleManager)) = 10000000000000000048879.
Proof. vm_compute. repeat split; reflexivity. Qed.

(** C4: a tick with newer data computes an expansion that a direct call would
    apply, publishes it on the update feed, and stops there: the adjustment
    feed stays empty, the history count stays zero and the treasury balance
    is as before, whereas the direct call sends the decision on the
    adjustment feed and takes the counterpart from the treasury. *)
Lemma tick_leaves_decision_unapplied :
  After GetLastUpdateTime (lastUpdateTime sampleManager) = true
  /\ updateFeed sampleAfterTick = [sampleDecision]
  /\ applied common.HexToHash sampleDecision sampleTreasury sampleManager = true
  /\ adjustFeed sampleAfterTick = []
  /\ historyCount common.HexToHash (ledgerOf sampleAfterTick) = 0
  /\ readBalance (ledgerOf sampleAfterTick) sampleTreasury = 500 * 10 ^ 18
  /\ adjustFeed (exec (ApplySupplyAdjustment common.HexToHash sampleDecision sampleTreasury)
                      sampleManager) = [sampleDecision]
  /\ readBalance
       (ledgerOf (exec (ApplySupplyAdjustment common.HexToHash sampleDecision sampleTreasury)
                       sampleManager)) sampleTreasury = 500 * 10 ^ 18 - 2.
Proof. vm_compute. repeat split; reflexivity. Qed.

(** C6: a counterpart amount of 2^256 does not fit, yet the call returns
    [nil], not the overflow error, when the decision is of kind [None] and
    when the feasibility check rejects the expansion. *)
Lemma oversized_amount_can_return_nil :
  fits256 sampleOversizedNone = false
  /\ eval (ApplySupplyAdjustment common.HexToHash sampleOversizedNone sampleTreasury)
          sampleManager = nil
  /\ fits256 sampleOversized = false
  /\ Type_ sampleOversized = seigniorage.Expansion
  /\ eval (ApplySupplyAdjustment common.HexToHash sampleOversized sampleTreasury)
          sampleManager = nil.
Proof. vm_compute. repeat split; reflexivity. Qed.

(** C7: the rejected expansion and the applied one return the same value. *)
Lemma rejected_call_returns_what_success_returns :
  Type_ sampleUnaffordable <> seigniorage.None
  /\ feasible common.HexToHash sampleUnaffordable sampleTreasury (ledgerOf sampleManager)
     = false
  /\ applied common.HexToHash sampleExpansion sampleTreasury sampleManager = true
  /\ eval (ApplySupplyAdjustment common.HexToHash sampleUnaffordable sampleTreasury)
          sampleManager
     = eval (ApplySupplyAdjustment common.HexToHash sampleExpansion sampleTreasury)
            sampleManager.
Proof. split; [discriminate|]. vm_compute. repeat split; reflexivity. Qed.

(** * Further properties of the code *)

(** ** Direct calls, for every key derivation *)

Section MoreCalls.
Variable HexToHash : string -> Hash.
Context {proprietary : Proprietary}.

Import params.
Local Abbreviation Apply := (ApplySupplyAdjustment HexToHash).

(** A call that is not applied gives back the manager with at most its log
    extended. *)
Lemma Apply_skipped_shape (a : AdjustmentResult) (t : Address) (m : UltraStableManager) :
  applied HexToHash a t m = false ->
  exists (e : error) (lg : list (Level * string)),
    Apply a t m
    = (e, mkManager (blockchain m) (lastUpdateTime m) (updateFeed m) (adjustFeed m) lg).
Proof.
  unfold applied. intros Hna.
  assert (m = mkManager (blockchain m) (lastUpdateTime m) (updateFeed m) (adjustFeed m)
                        (logged m)) as Hm by now destruct m.
  destruct (decide (Type_ a = seigniorage.None)) as [Hn|Hn].
  { exists nil, (logged m). rewrite Apply_none by assumption. now rewrite <- Hm. }
  destruct (stateErr (blockchain m)) as [e|] eqn:He.
  { exists (Some e), (logged m). rewrite (Apply_state_error _ _ _ _ e) by assumption.
    now rewrite <- Hm. }
  destruct (feasible HexToHash a t (ledgerOf m)) eqn:Hf.
  - destruct (fits256 a) eqn:Ho.
    + exfalso. rewrite bool_decide_eq_true_2 in Hna by assumption.
      rewrite bool_decide_eq_true_2 in Hna by reflexivity. discriminate Hna.
    + exists (errors_New "value token amount overflow"), (logged m).
      rewrite Apply_overflow by assumption. now rewrite <- Hm.
  - eexists nil, _. now rewrite Apply_infeasible.
Qed.

(** X1: when the ledger cannot be obtained, a call with a decision other than
    [None] returns the very error [State] reported and leaves the manager as
    it was. *)
Theorem unavailable_ledger_error_is_returned
        (a : AdjustmentResult) (t : Address) (m : UltraStableManager) (e : string) :
  Type_ a <> seigniorage.None ->
  stateErr (blockchain m) = Some e ->
  eval (Apply a t) m = Some e /\ exec (Apply a t) m = m.
Proof.
  intros Hn He. unfold eval, exec. now rewrite (Apply_state_error _ _ _ _ e).
Qed.

(** X2: whatever the decision, a call changes no balance but the treasury's
    and no storage slot outside the UltraStable system account; it never
    touches the update feed or the local time stamp. *)
Theorem apply_stays_within_treasury_and_system_account
        (a : AdjustmentResult) (t : Address) (m : UltraStableManager) :
  (forall t', t' <> t ->
     readBalance (ledgerOf (exec (Apply a t) m)) t' = readBalance (ledgerOf m) t')
  /\ (forall addr key, addr <> UltraStableTokenSystemAddress ->
        readState (ledgerOf (exec (Apply a t) m)) addr key = readState (ledgerOf m) addr key)
  /\ updateFeed (exec (Apply a t) m) = updateFeed m
  /\ lastUpdateTime (exec (Apply a t) m) = lastUpdateTime m.
Proof.
  destruct (applied HexToHash a t m) eqn:Ha.
  - unfold exec. rewrite Apply_applied by assumption.
    cbn [snd ledgerOf blockchain ledger updateFeed lastUpdateTime].
    split; [|split; [|split; reflexivity]].
    + intros t' Hne. rewrite journalAppend_balance. unfold settle. cbv zeta.
      destruct (Type_ a); [reflexivity| |];
        now rewrite readBalance_writeState, readBalance_writeBalance_ne.
    + intros addr key Hne. unfold journalAppend, settle. cbv zeta.
      assert (forall k, (UltraStableTokenSystemAddress, k) <> (addr, key)) as Hk
        by (intros k [= E _]; now apply Hne).
      destruct (Type_ a);
        repeat first [ rewrite readState_writeState_ne by apply Hk
                     | rewrite readState_writeBalance ];
        reflexivity.
  - destruct (Apply_skipped_shape a t m Ha) as (e & lg & Hrun).
    unfold exec. rewrite Hrun. cbn. repeat split; reflexivity.
Qed.

(** X3: the adjustment feed receives the decision, exactly as it was passed
    in, when and only when the call is applied; a call that is not applied
    leaves the whole ledger as it was. *)
Theorem adjustment_event_iff_applied
        (a : AdjustmentResult) (t : Address) (m : UltraStableManager) :
  adjustFeed (exec (Apply a t) m)
  = (adjustFeed m ++ (if applied HexToHash a t m then [a] else []))%list
  /\ (applied HexToHash a t m = false -> ledgerOf (exec (Apply a t) m) = ledgerOf m)
  /\ (applied HexToHash a t m = true -> eval (Apply a t) m = nil).
Proof.
  destruct (applied HexToHash a t m) eqn:Ha.
  - unfold exec, eval. rewrite Apply_applied by assumption. cbn.
    split; [reflexivity|]. split; [discriminate | reflexivity].
  - destruct (not_applied_frame HexToHash a t m Ha) as [Hl Hf].
    rewrite Hf, app_nil_r. split; [reflexivity|]. split; [now intros _ | discriminate].
Qed.
End MoreCalls.

(** ** Direct calls on the program's slots *)

Section MoreProgramCalls.
Context {proprietary : Proprietary}.

Import params.
Local Abbreviation Apply := (ApplySupplyAdjustment common.HexToHash).

(** X4: a contraction larger than the persisted supply does not fail: the
    difference is negative, its bytes are those of the absolute value, and the
    supply counter ends up at [supplyDelta - oldSupply]. *)
Theorem contraction_beyond_supply_stores_the_excess
        (a : AdjustmentResult) (t : Address) (m : UltraStableManager) :
  applied common.HexToHash a t m = true ->
  Type_ a = seigniorage.Contraction ->
  0 <= currentSupply common.HexToHash (ledgerOf m) < Amount a ->
  Amount a - currentSupply common.HexToHash (ledgerOf m) < two256 ->
  eval (Apply a t) m = nil
  /\ currentSupply common.HexToHash (ledgerOf (exec (Apply a t) m))
     = Amount a - currentSupply common.HexToHash (ledgerOf m).
Proof.
  intros Ha Ht Hs Hd. split; [now apply applied_returns_nil|].
  rewrite applied_ledger by assumption.
  rewrite journalAppend_supply, settle_supply, Ht.
  unfold BytesToHash, Bytes. rewrite Z.abs_neq by lia.
  rewrite Z.mod_small; lia.
Qed.

(** The record that the six names of any index lead to after an applied
    call. *)
Lemma storedEntry_after_applied
      (a : AdjustmentResult) (t : Address) (m : UltraStableManager) (j : Z) :
  applied common.HexToHash a t m = true ->
  let supplyWord := BytesToHash (Bytes (NewSupply a)) in
  let timeWord := BytesToHash (Bytes (Unix (Timestamp a))) in
  storedEntry common.HexToHash (ledgerOf (exec (Apply a t) m)) j
  = if Bool.eqb (oddDigits j) (oddDigits (historyCount common.HexToHash (ledgerOf m)))
    then mkAdjustment (kindOfWord supplyWord) supplyWord supplyWord timeWord supplyWord
                      (time_Unix (Int64 timeWord) 0)
    else mkAdjustment (kindOfWord timeWord) timeWord timeWord supplyWord timeWord
                      (time_Unix (Int64 supplyWord) 0).
Proof.
  intros Ha. cbv zeta. rewrite applied_ledger by assumption.
  unfold storedEntry. rewrite !journalAppend_word, settle_count.
  change (Nat.odd (String.length "type")) with false.
  change (Nat.odd (String.length "amount")) with false.
  change (Nat.odd (String.length "value_tokens")) with false.
  change (Nat.odd (String.length "deviation")) with true.
  change (Nat.odd (String.length "new_supply")) with false.
  change (Nat.odd (String.length "timestamp")) with true.
  now destruct (oddDigits j), (oddDigits (historyCount common.HexToHash (ledgerOf m))).
Qed.


(** X8: what the journal gives back after an applied call.  A request for
    [n >= 0] entries returns as many entries as the overwritten count allows,
    [min n count'], and every one of them is made of the announced supply and
    the time stamp of the decision just applied: nothing of any earlier
    decision is returned. *)
Theorem journal_returns_words_of_the_last_decision
        (a : AdjustmentResult) (t : Address) (m : UltraStableManager) (n : Z) :
  applied common.HexToHash a t m = true ->
  0 <= n < 2 ^ 63 ->
  let m' := exec (Apply a t) m in
  let count := historyCount common.HexToHash (ledgerOf m) in
  let count' := historyCount common.HexToHash (ledgerOf m') in
  let supplyWord := BytesToHash (Bytes (NewSupply a)) in
  let timeWord := BytesToHash (Bytes (Unix (Timestamp a))) in
  0 <= count' < 2 ^ 63 ->
  count' = (if oddDigits count then timeWord else supplyWord)
  /\ eval (GetAdjustmentHistory common.HexToHash n) m'
     = map (fun j =>
              if Bool.eqb (oddDigits j) (oddDigits count)
              then mkAdjustment (kindOfWord supplyWord) supplyWord supplyWord timeWord
                                supplyWord (time_Unix (Int64 timeWord) 0)
              else mkAdjustment (kindOfWord timeWord) timeWord timeWord supplyWord
                                timeWord (time_Unix (Int64 supplyWord) 0))
           (seqZ (Z.max 0 (count' - n)) (Z.min n count')).
Proof.
  intros Ha Hn. cbv zeta. intros Hc. split.
  - rewrite applied_ledger by assumption. now rewrite journalAppend_count, settle_count.
  - assert (stateErr (blockchain (exec (Apply a t) m)) = nil) as He.
    { unfold exec. now rewrite Apply_applied. }
    unfold eval. rewrite GetAdjustmentHistory_window by assumption. cbn [fst].
    apply map_ext. intros j. now apply storedEntry_after_applied.
Qed.
End MoreProgramCalls.

(** ** Retrieval, for every argument *)

Section MoreRetrieval.
Variable HexToHash : string -> Hash.
Context {proprietary : Proprietary}.

Import params.

(** The loop from any start: the entries of [start], ..., [count - 1], none
    when [start] is not below [count]. *)
Lemma fetchLoop_window (start count : Z) (s : StateDB) :
  fetchLoop HexToHash (Z.to_nat (count - start)) start count [] s
  = (map (fun j => eval (fetchEntry HexToHash j) s) (seqZ start (count - start)), s).
Proof.
  destruct (Z.le_gt_cases (count - start) 0) as [Hle|Hgt].
  - rewrite seqZ_nil by assumption.
    replace (Z.to_nat (count - start)) with 0%nat by lia. reflexivity.
  - rewrite (fetchLoop_run HexToHash _ start count) by lia.
    now rewrite Z2Nat.id by lia.
Qed.

Lemma GetAdjustmentHistory_run (n : Z) (m : UltraStableManager) :
  stateErr (blockchain m) = nil ->
  let count := Int64 (historyCount HexToHash (ledgerOf m)) in
  let start := wrap64 (count - wrap64 n) in
  let start := if start <? 0 then 0 else start in
  GetAdjustmentHistory HexToHash n m
  = (map (fun j => eval (fetchEntry HexToHash j) (ledgerOf m)) (seqZ start (count - start)),
     m).
Proof.
  intros He. destruct m as [[e s] lt uf af lg]. cbn [blockchain stateErr] in He. subst e.
  cbn [ledgerOf blockchain ledger]. cbv zeta.
  unfold GetAdjustmentHistory.
  cbv [mbind M_bind mret M_ret blockchain_State statedb GetState State
       blockchain ledger stateErr lastUpdateTime updateFeed adjustFeed logged
       fst snd nil].
  change (SetBytes (readState s UltraStableTokenSystemAddress
                      (HexToHash "adjustment_history_count")))
    with (historyCount HexToHash s).
  now rewrite fetchLoop_window.
Qed.

Lemma GetAdjustmentHistory_fail (n : Z) (m : UltraStableManager) (e : string) :
  stateErr (blockchain m) = Some e ->
  GetAdjustmentHistory HexToHash n m
  = ([], mkManager (blockchain m) (lastUpdateTime m) (updateFeed m) (adjustFeed m)
                   (logged m ++ [(LvlError, "Failed to get state for history retrieval")])).
Proof.
  intros He. destruct m as [[e' s] lt uf af lg]. cbn [blockchain stateErr] in He. subst e'.
  reflexivity.
Qed.

(** X5: [GetAdjustmentHistory] only reads: for every argument and every
    manager the ledger, both feeds and the local time stamp are as before;
    when the ledger cannot be obtained it returns the empty list and logs one
    error. *)
Theorem GetAdjustmentHistory_only_reads (n : Z) (m : UltraStableManager) :
  ledgerOf (exec (GetAdjustmentHistory HexToHash n) m) = ledgerOf m
  /\ updateFeed (exec (GetAdjustmentHistory HexToHash n) m) = updateFeed m
  /\ adjustFeed (exec (GetAdjustmentHistory HexToHash n) m) = adjustFeed m
  /\ lastUpdateTime (exec (GetAdjustmentHistory HexToHash n) m) = lastUpdateTime m
  /\ (forall e, stateErr (blockchain m) = Some e ->
        eval (GetAdjustmentHistory HexToHash n) m = []
        /\ logged (exec (GetAdjustmentHistory HexToHash n) m)
           = (logged m ++ [(LvlError, "Failed to get state for history retrieval")])%list).
Proof.
  unfold exec, eval. destruct (stateErr (blockchain m)) as [e|] eqn:He.
  - rewrite (GetAdjustmentHistory_fail n m e He). cbn.
    do 4 (split; [reflexivity|]). intros e' _. split; reflexivity.
  - rewrite (GetAdjustmentHistory_run n m He). cbn [snd].
    do 4 (split; [reflexivity|]). intros e' He'. discriminate He'.
Qed.

(** X7: a negative [maxEntries] yields no entry as long as [count -
    maxEntries] stays within int64; when that difference overflows (a request
    near the smallest int) the start wraps below zero, is clamped to zero, and
    the whole journal is returned. *)
Theorem GetAdjustmentHistory_negative_request (n : Z) (m : UltraStableManager) :
  stateErr (blockchain m) = nil ->
  (- 2 ^ 63) <= n < 0 ->
  0 <= historyCount HexToHash (ledgerOf m) < 2 ^ 63 ->
  let count := historyCount HexToHash (ledgerOf m) in
  (count - n < 2 ^ 63 -> eval (GetAdjustmentHistory HexToHash n) m = [])
  /\ (2 ^ 63 <= count - n ->
      eval (GetAdjustmentHistory HexToHash n) m
      = map (fun i => eval (fetchEntry HexToHash i) (ledgerOf m)) (seqZ 0 count)).
Proof.
  intros He Hn Hc count. unfold eval.
  rewrite (GetAdjustmentHistory_run n m He). cbn [fst]. fold count.
  unfold Int64. rewrite (wrap64_small count) by (unfold count; lia).
  rewrite (wrap64_small n) by lia. split.
  - intros Hfit. rewrite (wrap64_small (count - n)) by (unfold count in *; lia).
    destruct (Z.ltb_spec (count - n) 0) as [Hlt|Hge]; [unfold count in *; lia|].
    rewrite seqZ_nil by lia. reflexivity.
  - intros Hover.
    assert (wrap64 (count - n) = count - n - 2 ^ 64) as ->.
    { unfold wrap64.
      replace (count - n + 2 ^ 63) with (count - n - 2 ^ 63 + 1 * 2 ^ 64) by lia.
      rewrite Z.mod_add by lia. rewrite Z.mod_small; unfold count in *; lia. }
    destruct (Z.ltb_spec (count - n - 2 ^ 64) 0) as [Hlt|Hge]; [|unfold count in *; lia].
    now rewrite Z.sub_0_r.
Qed.
End MoreRetrieval.

(** ** The periodic path and the forced update, for every key derivation *)

Section MoreScheduler.
Variable HexToHash : string -> Hash.
Context {proprietary : Proprietary}.

Import params.

Lemma ProcessUpdate_fail (now now' : Time) (m : UltraStableManager) (e : string) :
  stateErr (blockchain m) = Some e ->
  ProcessUpdate HexToHash now now' m
  = (tt, mkManager (blockchain m) (lastUpdateTime m) (updateFeed m) (adjustFeed m)
                   (logged m ++ [(LvlError, "Failed to get blockchain state")])).
Proof.
  intros He. destruct m as [[e' s] lt uf af lg]. cbn [blockchain stateErr] in He. subst e'.
  reflexivity.
Qed.

Lemma checkForUpdates_idle (now now' : Time) (m : UltraStableManager) :
  After GetLastUpdateTime (lastUpdateTime m) = false ->
  checkForUpdates HexToHash now now' m = (tt, m).
Proof.
  intros Hidle. unfold checkForUpdates. cbv [mbind M_bind get]. now rewrite Hidle.
Qed.

(** X9: a tick that finds newer data while the ledger cannot be obtained
    publishes nothing, leaves the ledger alone and does not advance the local
    time stamp, so the data still counts as newer at the next tick; the two
    log lines are the only trace. *)
Theorem tick_without_ledger_is_retried (now now' : Time) (m : UltraStableManager) (e : string) :
  After GetLastUpdateTime (lastUpdateTime m) = true ->
  stateErr (blockchain m) = Some e ->
  updateFeed (exec (checkForUpdates HexToHash now now') m) = updateFeed m
  /\ adjustFeed (exec (checkForUpdates HexToHash now now') m) = adjustFeed m
  /\ ledgerOf (exec (checkForUpdates HexToHash now now') m) = ledgerOf m
  /\ lastUpdateTime (exec (checkForUpdates HexToHash now now') m) = lastUpdateTime m
  /\ After GetLastUpdateTime (lastUpdateTime (exec (checkForUpdates HexToHash now now') m))
     = true
  /\ logged (exec (checkForUpdates HexToHash now now') m)
     = (logged m ++ [(LvlInfo, "New UltraStable data available, triggering update");
                     (LvlError, "Failed to get blockchain state")])%list.
Proof.
  intros Hnew He.
  assert (checkForUpdates HexToHash now now' m
          = (tt, mkManager (blockchain m) (lastUpdateTime m) (updateFeed m) (adjustFeed m)
                           (logged m
                            ++ [(LvlInfo, "New UltraStable data available, triggering update");
                                (LvlError, "Failed to get blockchain state")]))) as Hrun.
  { unfold checkForUpdates. cbv [mbind M_bind get]. rewrite Hnew.
    cbv [log modify]. rewrite (ProcessUpdate_fail _ _ _ e) by (destruct m; exact He).
    destruct m as [bc lt uf af lg]. cbn. now rewrite <- app_assoc. }
  unfold exec. rewrite Hrun. cbn. repeat split; try reflexivity. exact Hnew.
Qed.

(** X10: after a tick that processed an update, the next tick does nothing
    when the clock reading taken at the end of the update is not before the
    source's update time; when that reading is still before it, the next tick
    processes again and publishes a second decision. *)
Theorem next_tick_after_processed_update
        (now now' later later' : Time) (m : UltraStableManager) :
  After GetLastUpdateTime (lastUpdateTime m) = true ->
  stateErr (blockchain m) = nil ->
  let m1 := exec (checkForUpdates HexToHash now now') m in
  (After GetLastUpdateTime now' = false ->
     checkForUpdates HexToHash later later' m1 = (tt, m1))
  /\ (After GetLastUpdateTime now' = true ->
      updateFeed (exec (checkForUpdates HexToHash later later') m1)
      = (updateFeed m ++ [decisionFor HexToHash (ledgerOf m);
                          decisionFor HexToHash (ledgerOf m1)])%list).
Proof.
  intros Hnew He m1.
  assert (lastUpdateTime m1 = now') as Hlt.
  { unfold m1, exec. now rewrite checkForUpdates_run. }
  assert (stateErr (blockchain m1) = nil) as He1.
  { unfold m1, exec. now rewrite checkForUpdates_run. }
  assert (updateFeed m1 = (updateFeed m ++ [decisionFor HexToHash (ledgerOf m)])%list) as Hu.
  { unfold m1, exec. now rewrite checkForUpdates_run. }
  split.
  - intros Hidle. apply checkForUpdates_idle. now rewrite Hlt.
  - intros Hagain. unfold exec at 1.
    rewrite checkForUpdates_run by (rewrite ?Hlt; assumption).
    cbn [snd updateFeed]. rewrite Hu. now rewrite <- app_assoc.
Qed.

(** X12: [ForceUpdate] hands back the oracle's error without touching the
    manager; once the oracle query succeeded it returns [nil] whatever
    [ProcessUpdate] did, also when the ledger could not be obtained and
    nothing was published or stored. *)
Theorem ForceUpdate_reports_only_the_oracle
        (queryErr : error) (now now' : Time) (m : UltraStableManager) :
  (forall e, queryErr = Some e ->
     ForceUpdate HexToHash queryErr now now' m = (Some e, m))
  /\ (queryErr = nil ->
      eval (ForceUpdate HexToHash queryErr now now') m = nil
      /\ exec (ForceUpdate HexToHash queryErr now now') m
         = exec (ProcessUpdate HexToHash now now') m
      /\ (forall e, stateErr (blockchain m) = Some e ->
            updateFeed (exec (ForceUpdate HexToHash queryErr now now') m) = updateFeed m
            /\ ledgerOf (exec (ForceUpdate HexToHash queryErr now now') m) = ledgerOf m
            /\ lastUpdateTime (exec (ForceUpdate HexToHash queryErr now now') m)
               = lastUpdateTime m)).
Proof.
  split.
  - intros e ->. reflexivity.
  - intros ->.
    assert (ForceUpdate HexToHash nil now now' m
            = (nil, exec (ProcessUpdate HexToHash now now') m)) as Hrun.
    { unfold ForceUpdate, exec. cbv [nil mbind M_bind mret M_ret].
      now destruct (ProcessUpdate HexToHash now now' m) as [[] m']. }
    remember (exec (ProcessUpdate HexToHash now now') m) as m1 eqn:Hm1.
    unfold eval, exec. rewrite !Hrun. cbn [fst snd].
    split; [reflexivity|]. split; [reflexivity|].
    intros e He. subst m1. unfold exec. rewrite (ProcessUpdate_fail _ _ _ e He). cbn.
    repeat split; reflexivity.
Qed.
End MoreScheduler.

(** ** The status words on the program's slots *)

Section MoreProgramScheduler.
Context {proprietary : Proprietary}.

Import params.

(** X11: the three status names of [ProcessUpdate] lead to one slot, the one
    of the supply and of the minimum supply.  With the ledger available, the
    last of the three writes wins: the target value, the current value, the
    update time, the supply and the minimum supply all read the first clock
    reading in whole seconds afterwards; the local time stamp is the second
    clock reading. *)
Theorem ProcessUpdate_status_words_share_a_slot (now now' : Time) (m : UltraStableManager) :
  stateErr (blockchain m) = nil ->
  let s' := ledgerOf (exec (ProcessUpdate common.HexToHash now now') m) in
  let timeWord := BytesToHash (Bytes (Unix now)) in
  readState s' UltraStableTokenSystemAddress (common.HexToHash "ultrastable_target_value")
  = timeWord
  /\ readState s' UltraStableTokenSystemAddress (common.HexToHash "ultrastable_current_value")
     = timeWord
  /\ readState s' UltraStableTokenSystemAddress
               (common.HexToHash "ultrastable_last_update_time")
     = timeWord
  /\ currentSupply common.HexToHash s' = timeWord
  /\ minimumSupply common.HexToHash s' = timeWord
  /\ lastUpdateTime (exec (ProcessUpdate common.HexToHash now now') m) = now'.
Proof.
  intros He. cbv zeta. unfold exec. rewrite ProcessUpdate_run by assumption.
  cbn [snd ledgerOf blockchain ledger lastUpdateTime].
  unfold statusWrites, currentSupply, minimumSupply, SetBytes. on_slots.
  rewrite readState_writeState_eq. repeat split.
Qed.
End MoreProgramScheduler.

(** ** Genesis *)

Section MoreGenesis.
Variable HexToHash : string -> Hash.
Context {proprietary : Proprietary}.

Import params.

Lemma exec_seq {S A B} (c : M S A) (d : M S B) (s : S) :
  exec (c ;; d) s = exec d (exec c s).
Proof. unfold exec. cbv [mbind M_bind]. now destruct (c s). Qed.

Lemma exec_SetState (addr : Address) (key value : Hash) (s : StateDB) :
  exec (SetState addr key value) s = writeState addr key value s.
Proof. reflexivity. Qed.

Lemma exec_AddBalance (addr : Address) (amount reason : Z) (s : StateDB) :
  exec (AddBalance addr amount reason) s
  = writeBalance addr ((readBalance s addr + amount) mod two256) s.
Proof. reflexivity. Qed.

(** A [range] loop over slots of the UltraStable account changes no balance
    and no slot of another account. *)
Lemma for_range_elsewhere (prefix : string) (value : Z -> Hash)
      (entries : list (string * Z)) :
  forall s,
    let s' := exec (for_range entries (fun k v =>
                 SetState UltraStableTokenSystemAddress (HexToHash (prefix +:+ k)) (value v))) s in
    (forall t, readBalance s' t = readBalance s t)
    /\ (forall addr key, addr <> UltraStableTokenSystemAddress ->
          readState s' addr key = readState s addr key).
Proof.
  induction entries as [|[k v] rest IH]; intros s; [split; reflexivity|].
  cbn [for_range]. cbv zeta. rewrite exec_seq, exec_SetState.
  destruct (IH (writeState UltraStableTokenSystemAddress (HexToHash (prefix +:+ k))
                           (value v) s)) as [Hb Hs].
  split.
  - intros t. now rewrite Hb.
  - intros addr key Hne. rewrite Hs by assumption.
    apply readState_writeState_ne. intros [= E _]. now apply Hne.
Qed.

(** A [range] loop keeps every slot that none of its names leads to. *)
Lemma for_range_keeps_slot (prefix : string) (key : Hash) (value : Z -> Hash)
      (entries : list (string * Z)) :
  (forall k, HexToHash (prefix +:+ k) <> key) ->
  forall s,
    readState
      (exec (for_range entries (fun k v =>
               SetState UltraStableTokenSystemAddress (HexToHash (prefix +:+ k)) (value v))) s)
      UltraStableTokenSystemAddress key
    = readState s UltraStableTokenSystemAddress key.
Proof.
  intros Hne. induction entries as [|[k v] rest IH]; intros s; [reflexivity|].
  cbn [for_range]. rewrite exec_seq, IH, exec_SetState.
  apply readState_writeState_ne. intros [= E]. now apply (Hne k).
Qed.

(** X13: when the configured initial supply does not fit 256 bits, genesis
    gives up before its first write: no balance is credited and no slot is
    initialised. *)
Theorem genesis_overflow_leaves_state_untouched
        (now : Time) (treasuryAddr : Address) (s0 : StateDB) :
  two256 <= Z.abs (ultrastable.InitialSupply GetStableConfig) ->
  exec (SetupUltraStableToken HexToHash now treasuryAddr) s0 = s0.
Proof.
  intros Hbig. unfold SetupUltraStableToken, FromBig. cbv zeta.
  apply Z.leb_le in Hbig. now rewrite Hbig.
Qed.

(** Genesis writes no slot outside the UltraStable system account. *)
Lemma genesis_elsewhere (now : Time) (treasuryAddr : Address) (s0 : StateDB)
      (addr : Address) (key : Hash) :
  addr <> UltraStableTokenSystemAddress ->
  readState (exec (SetupUltraStableToken HexToHash now treasuryAddr) s0) addr key
  = readState s0 addr key.
Proof.
  intros Hne. unfold SetupUltraStableToken. cbv zeta.
  destruct (FromBig (ultrastable.InitialSupply GetStableConfig)) as [v [|]]; [reflexivity|].
  rewrite !exec_seq, !exec_SetState, exec_AddBalance.
  assert (forall k, (UltraStableTokenSystemAddress, k) <> (addr, key)) as Hk
    by (intros k [= E _]; now apply Hne).
  rewrite readState_writeState_ne by apply Hk.
  repeat (rewrite (proj2 (for_range_elsewhere _ _ _ _)) by assumption).
  repeat rewrite readState_writeState_ne by apply Hk.
  apply readState_writeBalance.
Qed.
End MoreGenesis.

(** ** Genesis on the program's slots *)

Section MoreProgramGenesis.
Context {proprietary : Proprietary}.

Import params.

(** The names of the three weight tables never lead to slot 0xad. *)
Lemma continental_slot (k : string) :
  common.HexToHash ("continental_weight_" +:+ k) <> 173.
Proof.
  change ("continental_weight_" +:+ k)
    with (String "c" (String "o" ("ntinental_weight_" +:+ k))).
  rewrite HexToHash_co.
  destruct (Nat.odd _); intros E; discriminate E.
Qed.

Lemma timeframe_slot (k : string) : common.HexToHash ("timeframe_weight_" +:+ k) = 0.
Proof.
  change ("timeframe_weight_" +:+ k) with (String "t" ("imeframe_weight_" +:+ k)).
  now apply HexToHash_nonhex.
Qed.

Lemma smoothing_slot (k : string) : common.HexToHash ("smoothing_window_" +:+ k) = 0.
Proof.
  change ("smoothing_window_" +:+ k) with (String "s" ("moothing_window_" +:+ k)).
  now apply HexToHash_nonhex.
Qed.

Lemma treasury_slot : common.HexToHash "treasury_address" = 0.
Proof. reflexivity. Qed.

(** The ledger after genesis, slot by slot. *)
Lemma genesis_ledger (now : Time) (treasuryAddr : Address) (s0 : StateDB) :
  0 <= ultrastable.InitialSupply GetStableConfig < two256 ->
  let s := exec (SetupUltraStableToken common.HexToHash now treasuryAddr) s0 in
  currentSupply common.HexToHash s = BytesToHash treasuryAddr
  /\ minimumSupply common.HexToHash s = BytesToHash treasuryAddr
  /\ readState s UltraStableTokenSystemAddress (common.HexToHash "market_volatility")
     = BytesToHash treasuryAddr
  /\ historyCount common.HexToHash s = 0
  /\ readBalance s treasuryAddr
     = (readBalance s0 treasuryAddr + ultrastable.InitialSupply GetStableConfig) mod two256
  /\ (forall t, t <> treasuryAddr -> readBalance s t = readBalance s0 t).
Proof.
  intros Hfit s.
  assert (FromBig (ultrastable.InitialSupply GetStableConfig)
          = (ultrastable.InitialSupply GetStableConfig, false)) as Hfb.
  { unfold FromBig. rewrite Z.mod_small by lia. f_equal.
    apply Z.leb_gt. rewrite Z.abs_eq; lia. }
  assert (s = exec (SetupUltraStableToken common.HexToHash now treasuryAddr) s0) as Hs
    by reflexivity.
  unfold SetupUltraStableToken in Hs. cbv zeta in Hs. rewrite Hfb in Hs.
  rewrite !exec_seq, !exec_SetState, exec_AddBalance in Hs.
  rewrite treasury_slot in Hs.
  split; [|split; [|split; [|split; [|split]]]].
  - rewrite Hs. unfold currentSupply, SetBytes. rewrite slot_current_supply.
    apply readState_writeState_eq.
  - rewrite Hs. unfold minimumSupply, SetBytes. rewrite slot_minimum_supply.
    apply readState_writeState_eq.
  - rewrite Hs. rewrite slot_volatility. apply readState_writeState_eq.
  - rewrite Hs. unfold historyCount, SetBytes. rewrite slot_count.
    rewrite readState_writeState_ne by (intros E; discriminate E).
    rewrite (for_range_keeps_slot common.HexToHash "smoothing_window_")
      by (intros k; rewrite smoothing_slot; intros E; discriminate E).
    rewrite (for_range_keeps_slot common.HexToHash "timeframe_weight_")
      by (intros k; rewrite timeframe_slot; intros E; discriminate E).
    rewrite (for_range_keeps_slot common.HexToHash "continental_weight_")
      by apply continental_slot.
    apply readState_writeState_eq.
  - rewrite Hs. rewrite readBalance_writeState.
    repeat (rewrite (proj1 (for_range_elsewhere _ _ _ _ _))).
    rewrite !readBalance_writeState. now rewrite readBalance_writeBalance_eq.
  - intros t Hne. rewrite Hs. rewrite readBalance_writeState.
    repeat (rewrite (proj1 (for_range_elsewhere _ _ _ _ _))).
    rewrite !readBalance_writeState. now rewrite readBalance_writeBalance_ne.
Qed.

(** X14: what genesis leaves on the ledger.  With an initial supply that
    fits, it credits the initial supply to the treasury's balance, changes no
    other balance, and leaves the history count at 0.  Its last write, the
    treasury address, goes to the slot that the supply, the minimum supply
    and the volatility are read from: all three read the treasury address
    afterwards, not the initial supply, 10^18 and 25. *)
Theorem genesis_initial_ledger (now : Time) (treasuryAddr : Address) (s0 : StateDB) :
  0 <= ultrastable.InitialSupply GetStableConfig < two256 ->
  let s := exec (SetupUltraStableToken common.HexToHash now treasuryAddr) s0 in
  currentSupply common.HexToHash s = BytesToHash treasuryAddr
  /\ minimumSupply common.HexToHash s = BytesToHash treasuryAddr
  /\ readState s UltraStableTokenSystemAddress (common.HexToHash "market_volatility")
     = BytesToHash treasuryAddr
  /\ historyCount common.HexToHash s = 0
  /\ readBalance s treasuryAddr
     = (readBalance s0 treasuryAddr + ultrastable.InitialSupply GetStableConfig) mod two256
  /\ (forall t, t <> treasuryAddr -> readBalance s t = readBalance s0 t).
Proof. apply genesis_ledger. Qed.

(** X15: on a chain fresh from genesis, where no value-token price has been
    recorded, the first update asks the decision source about the treasury
    address as the supply, the default price 10^18 and the lowest byte of the
    treasury address as the volatility, and publishes its answer. *)
Theorem first_update_after_genesis
        (now : Time) (treasuryAddr : Address) (s0 : StateDB)
        (later later' : Time) (m : UltraStableManager) :
  0 <= ultrastable.InitialSupply GetStableConfig < two256 ->
  readState s0 O2ULTokenSystemAddress (common.HexToHash "value_token_price") = 0 ->
  ledgerOf m = exec (SetupUltraStableToken common.HexToHash now treasuryAddr) s0 ->
  stateErr (blockchain m) = nil ->
  updateFeed (exec (ProcessUpdate common.HexToHash later later') m)
  = (updateFeed m
     ++ [CalculateSupplyAdjustment (BytesToHash treasuryAddr) (10 ^ 18)
                                   (uint8 (Uint64 (BytesToHash treasuryAddr)))])%list.
Proof.
  intros Hfit Hprice Hgen He.
  destruct (genesis_ledger now treasuryAddr s0 Hfit) as (Hs & _ & Hv & _).
  unfold exec. rewrite (ProcessUpdate_run common.HexToHash later later' m He).
  cbn [snd updateFeed]. unfold decisionFor. rewrite Hgen.
  rewrite genesis_elsewhere by (intros E; discriminate E).
  rewrite Hprice, Hs, Hv. reflexivity.
Qed.
(** X16: the configured tables do not survive genesis.  Every timeframe
    weight and smoothing window, and every continental weight whose name has
    an odd number of characters, is written to the slot that the treasury
    address is written to last: whatever the tables hold, these names read
    the treasury address afterwards. *)
Theorem genesis_overwrites_configured_weights
        (now : Time) (treasuryAddr : Address) (s0 : StateDB) :
  0 <= ultrastable.InitialSupply GetStableConfig < two256 ->
  let s := exec (SetupUltraStableToken common.HexToHash now treasuryAddr) s0 in
  (forall timeframe,
     readState s UltraStableTokenSystemAddress
               (common.HexToHash ("timeframe_weight_" +:+ timeframe))
     = BytesToHash treasuryAddr)
  /\ (forall timeframe,
        readState s UltraStableTokenSystemAddress
                  (common.HexToHash ("smoothing_window_" +:+ timeframe))
        = BytesToHash treasuryAddr)
  /\ (forall continent,
        Nat.odd (String.length continent) = true ->
        readState s UltraStableTokenSystemAddress
                  (common.HexToHash ("continental_weight_" +:+ continent))
        = BytesToHash treasuryAddr).
Proof.
  intros Hfit s.
  assert (readState s UltraStableTokenSystemAddress 0 = BytesToHash treasuryAddr) as Hzero.
  { destruct (genesis_ledger now treasuryAddr s0 Hfit) as (Hs & _).
    unfold currentSupply, SetBytes in Hs. now rewrite slot_current_supply in Hs. }
  split; [|split].
  - intros k. now rewrite timeframe_slot.
  - intros k. now rewrite smoothing_slot.
  - intros k Hk.
    change ("continental_weight_" +:+ k)
      with (String "c" (String "o" ("ntinental_weight_" +:+ k))).
    rewrite HexToHash_co.
    change (String.length (String "c" (String "o" ("ntinental_weight_" +:+ k))))
      with (S (S (String.length ("ntinental_weight_" +:+ k)))).
    rewrite length_append.
    change (String.length "ntinental_weight_") with 17%nat.
    replace (S (S (17 + String.length k))) with (String.length k + 19)%nat by lia.
    rewrite Nat.odd_add, Hk. exact Hzero.
Qed.
End MoreProgramGenesis.

(** ** The value-token allocation of genesis *)

Section MoreTokens.
Variable HexToHash : string -> Hash.

Import params.

Lemma FromBig_FounderAllocation : FromBig FounderAllocation = (FounderAllocation, false).
Proof. vm_compute. reflexivity. Qed.

Lemma FromBig_ReserveAllocation : FromBig ReserveAllocation = (ReserveAllocation, false).
Proof. vm_compute. reflexivity. Qed.

(** X17: [SetupO2ULToken] credits the founder with 12.6 million and the
    reserve with 8.4 million tokens; the two credits add up to the maximum
    supply, and land on one balance when founder and reserve are the same
    account.  No other balance changes.  (Balances are 256-bit, so the
    credited balances are taken to fit.) *)
Theorem SetupO2ULToken_allocates_the_maximum_supply
        (founder reserve : Address) (s : StateDB) :
  0 <= readBalance s founder ->
  0 <= readBalance s reserve ->
  readBalance s founder + readBalance s reserve + MaxSupply < two256 ->
  let s' := exec (SetupO2ULToken HexToHash founder reserve) s in
  FounderAllocation + ReserveAllocation = MaxSupply
  /\ (founder <> reserve ->
      readBalance s' founder = readBalance s founder + FounderAllocation
      /\ readBalance s' reserve = readBalance s reserve + ReserveAllocation)
  /\ (founder = reserve -> readBalance s' founder = readBalance s founder + MaxSupply)
  /\ (forall t, t <> founder -> t <> reserve -> readBalance s' t = readBalance s t).
Proof.
  intros Hf Hr Hfit s'.
  assert (s' = exec (SetupO2ULToken HexToHash founder reserve) s) as Hs by reflexivity.
  unfold SetupO2ULToken in Hs.
  rewrite FromBig_FounderAllocation, FromBig_ReserveAllocation in Hs. cbv zeta in Hs.
  rewrite !exec_seq in Hs.
  change (exec (mret tt)) with (fun c : StateDB => c) in Hs.
  change (exec (GetBalance reserve)) with (fun c : StateDB => c) in Hs.
  change (exec (GetBalance founder)) with (fun c : StateDB => c) in Hs.
  cbv beta in Hs. rewrite !exec_SetState, !exec_AddBalance in Hs.
  assert (0 < FounderAllocation /\ 0 < ReserveAllocation
          /\ FounderAllocation + ReserveAllocation = MaxSupply) as (Hfa & Hra & Hsum)
    by (vm_compute; repeat split; reflexivity).
  split; [exact Hsum|split; [|split]].
  - intros Hne. rewrite Hs, !readBalance_writeState. split.
    + rewrite readBalance_writeBalance_ne by (apply not_eq_sym; exact Hne).
      rewrite readBalance_writeBalance_eq. apply Z.mod_small. lia.
    + rewrite readBalance_writeBalance_eq.
      rewrite readBalance_writeBalance_ne by assumption. apply Z.mod_small. lia.
  - intros <-. rewrite Hs, !readBalance_writeState.
    rewrite !readBalance_writeBalance_eq.
    rewrite (Z.mod_small (readBalance s founder + FounderAllocation)) by lia.
    rewrite Z.mod_small by lia. lia.
  - intros t Ht1 Ht2. rewrite Hs, !readBalance_writeState.
    rewrite !readBalance_writeBalance_ne by (apply not_eq_sym; assumption). reflexivity.
Qed.
End MoreTokens.

(** ** The further properties at work on the sample ledgers *)

Lemma unavailable_ledger_witness :
  eval (ApplySupplyAdjustment common.HexToHash sampleExpansion sampleTreasury) sampleUnavailable
  = Some "database closed"
  /\ exec (ApplySupplyAdjustment common.HexToHash sampleExpansion sampleTreasury)
          sampleUnavailable
     = sampleUnavailable.
Proof.
  apply (unavailable_ledger_error_is_returned
           common.HexToHash sampleExpansion sampleTreasury sampleUnavailable "database closed").
  - intros E. discriminate E.
  - reflexivity.
Defined.

Lemma excessive_contraction_witness :
  applied common.HexToHash sampleExcessiveContraction sampleTreasury sampleManager = true
  /\ currentSupply common.HexToHash (ledgerOf sampleManager) = 48879
  /\ Amount sampleExcessiveContraction = 3000000 * 10 ^ 18
  /\ currentSupply common.HexToHash
       (ledgerOf (exec (ApplySupplyAdjustment common.HexToHash sampleExcessiveContraction
                                              sampleTreasury) sampleManager))
     = 2999999999999999999951121.
Proof.
  assert (applied common.HexToHash sampleExcessiveContraction sampleTreasury sampleManager
          = true) as Ha by (vm_compute; reflexivity).
  assert (currentSupply common.HexToHash (ledgerOf sampleManager) = 48879) as Hs
    by (vm_compute; reflexivity).
  split; [exact Ha|]. split; [exact Hs|]. split; [reflexivity|].
  destruct (contraction_beyond_supply_stores_the_excess
              sampleExcessiveContraction sampleTreasury sampleManager Ha eq_refl)
    as [_ Hnew].
  - rewrite Hs. vm_compute. split; [intros E; discriminate E | reflexivity].
  - rewrite Hs. vm_compute. reflexivity.
  - rewrite Hnew, Hs. vm_compute. reflexivity.
Defined.


Lemma negative_request_witness :
  historyCount common.HexToHash (ledgerOf sampleJournal) = 2
  /\ eval (GetAdjustmentHistory common.HexToHash (-1)) sampleJournal = []
  /\ length (eval (GetAdjustmentHistory common.HexToHash (- 2 ^ 63)) sampleJournal) = 2%nat.
Proof.
  assert (stateErr (blockchain sampleJournal) = nil) as He by (vm_compute; reflexivity).
  assert (historyCount common.HexToHash (ledgerOf sampleJournal) = 2) as Hcount
    by (vm_compute; reflexivity).
  assert (0 <= historyCount common.HexToHash (ledgerOf sampleJournal) < 2 ^ 63) as Hc
    by (rewrite Hcount; lia).
  split; [exact Hcount|]. split.
  - assert ((- 2 ^ 63) <= -1 < 0) as Hn by lia.
    pose proof (GetAdjustmentHistory_negative_request
                  common.HexToHash (-1) sampleJournal He Hn Hc) as Hw.
    cbv zeta in Hw. destruct Hw as [Hnone _]. apply Hnone. rewrite Hcount. lia.
  - assert ((- 2 ^ 63) <= - 2 ^ 63 < 0) as Hn by lia.
    pose proof (GetAdjustmentHistory_negative_request
                  common.HexToHash (- 2 ^ 63) sampleJournal He Hn Hc) as Hw.
    cbv zeta in Hw. destruct Hw as [_ Hall]. rewrite Hall by (rewrite Hcount; lia).
    rewrite length_map, length_seqZ, Hcount. reflexivity.
Defined.

Lemma tick_without_ledger_witness :
  After GetLastUpdateTime (lastUpdateTime sampleUnavailable) = true
  /\ updateFeed (exec (checkForUpdates common.HexToHash 1 2) sampleUnavailable) = []
  /\ lastUpdateTime (exec (checkForUpdates common.HexToHash 1 2) sampleUnavailable) = 0.
Proof.
  assert (After GetLastUpdateTime (lastUpdateTime sampleUnavailable) = true) as Hnew
    by (vm_compute; reflexivity).
  split; [exact Hnew|].
  destruct (tick_without_ledger_is_retried
              common.HexToHash 1 2 sampleUnavailable "database closed" Hnew eq_refl)
    as (Hu & _ & _ & Hl & _).
  split; [exact Hu | exact Hl].
Defined.

Lemma next_tick_witness :
  After GetLastUpdateTime (lastUpdateTime sampleManager) = true
  /\ After GetLastUpdateTime (1700000101 * 10 ^ 9) = false
  /\ checkForUpdates common.HexToHash (1700000200 * 10 ^ 9) (1700000201 * 10 ^ 9)
                     sampleAfterTick
     = (tt, sampleAfterTick).
Proof.
  assert (After GetLastUpdateTime (lastUpdateTime sampleManager) = true) as Hnew
    by (vm_compute; reflexivity).
  assert (After GetLastUpdateTime (1700000101 * 10 ^ 9) = false) as Hidle
    by (vm_compute; reflexivity).
  split; [exact Hnew|]. split; [exact Hidle|].
  pose proof (next_tick_after_processed_update
                common.HexToHash (1700000100 * 10 ^ 9) (1700000101 * 10 ^ 9)
                (1700000200 * 10 ^ 9) (1700000201 * 10 ^ 9) sampleManager Hnew eq_refl) as Hn.
  cbv zeta in Hn. destruct Hn as [Hstop _]. exact (Hstop Hidle).
Defined.

(** After an update at second 1,700,000,100 the supply name reads that
    second. *)
Lemma stored_status_witness :
  stateErr (blockchain sampleManager) = nil
  /\ currentSupply common.HexToHash (ledgerOf sampleManager) = 48879
  /\ currentSupply common.HexToHash
       (ledgerOf (exec (ProcessUpdate common.HexToHash (1700000100 * 10 ^ 9 + 7)
                                      (1700000101 * 10 ^ 9)) sampleManager))
     = 1700000100
  /\ readState (ledgerOf (exec (ProcessUpdate common.HexToHash (1700000100 * 10 ^ 9 + 7)
                                              (1700000101 * 10 ^ 9)) sampleManager))
               params.UltraStableTokenSystemAddress
               (common.HexToHash "ultrastable_target_value")
     = 1700000100
  /\ lastUpdateTime (exec (ProcessUpdate common.HexToHash (1700000100 * 10 ^ 9 + 7)
                                         (1700000101 * 10 ^ 9)) sampleManager)
     = 1700000101 * 10 ^ 9.
Proof.
  split; [reflexivity|]. split; [vm_compute; reflexivity|].
  pose proof (ProcessUpdate_status_words_share_a_slot
                (1700000100 * 10 ^ 9 + 7) (1700000101 * 10 ^ 9) sampleManager eq_refl) as Hst.
  cbv zeta in Hst. destruct Hst as (Htarget & _ & _ & Hsupply & _ & Hlocal).
  split; [rewrite Hsupply; vm_compute; reflexivity|].
  split; [rewrite Htarget; vm_compute; reflexivity | exact Hlocal].
Defined.

Lemma genesis_overflow_witness :
  exec (SetupUltraStableToken (proprietary := oversizedSource) common.HexToHash 0 sampleTreasury)
       emptyStateDB
  = emptyStateDB.
Proof.
  apply (genesis_overflow_leaves_state_untouched (proprietary := oversizedSource)
           common.HexToHash 0 sampleTreasury emptyStateDB).
  vm_compute. intros E. discriminate E.
Defined.

(** Genesis with the treasury at 0xbeef = 48879. *)
Lemma genesis_ledger_witness :
  currentSupply common.HexToHash (ledgerOf sampleFresh) = 48879
  /\ minimumSupply common.HexToHash (ledgerOf sampleFresh) = 48879
  /\ historyCount common.HexToHash (ledgerOf sampleFresh) = 0
  /\ readBalance (ledgerOf sampleFresh) sampleTreasury = 1000000 * 10 ^ 18.
Proof.
  assert (0 <= ultrastable.InitialSupply GetStableConfig < two256) as Hfit
    by (vm_compute; split; [intros E; discriminate E | reflexivity]).
  pose proof (genesis_initial_ledger 0 sampleTreasury emptyStateDB Hfit) as Hg.
  cbv zeta in Hg. destruct Hg as (Hs & Hm & _ & Hc & Hb & _).
  unfold sampleFresh, managerOf, ledgerOf. cbn [blockchain ledger].
  split; [rewrite Hs; vm_compute; reflexivity|].
  split; [rewrite Hm; vm_compute; reflexivity|]. split; [exact Hc|].
  rewrite Hb. vm_compute. reflexivity.
Defined.

Lemma first_update_witness :
  updateFeed (exec (ProcessUpdate common.HexToHash 1 2) sampleFresh)
  = [CalculateSupplyAdjustment 48879 (10 ^ 18) 239].
Proof.
  assert (0 <= ultrastable.InitialSupply GetStableConfig < two256) as Hfit
    by (vm_compute; split; [intros E; discriminate E | reflexivity]).
  assert (ledgerOf sampleFresh
          = exec (SetupUltraStableToken common.HexToHash 0 sampleTreasury) emptyStateDB)
    as Hgen by reflexivity.
  rewrite (first_update_after_genesis
             0 sampleTreasury emptyStateDB 1 2 sampleFresh Hfit eq_refl Hgen eq_refl).
  vm_compute. reflexivity.
Defined.

Lemma allocation_witness :
  readBalance (exec (SetupO2ULToken common.HexToHash sampleFounder sampleReserve) emptyStateDB)
              sampleFounder
  = 12600000 * 10 ^ 18
  /\ readBalance (exec (SetupO2ULToken common.HexToHash sampleFounder sampleReserve)
                       emptyStateDB) sampleReserve
     = 8400000 * 10 ^ 18
  /\ readBalance (exec (SetupO2ULToken common.HexToHash sampleFounder sampleFounder)
                       emptyStateDB) sampleFounder
     = 21000000 * 10 ^ 18.
Proof.
  assert (0 <= readBalance emptyStateDB sampleFounder) as Hf by (vm_compute; intros E; discriminate E).
  assert (0 <= readBalance emptyStateDB sampleReserve) as Hr by (vm_compute; intros E; discriminate E).
  assert (readBalance emptyStateDB sampleFounder + readBalance emptyStateDB sampleReserve
          + MaxSupply < two256) as Hfit by (vm_compute; reflexivity).
  assert (readBalance emptyStateDB sampleFounder + readBalance emptyStateDB sampleFounder
          + MaxSupply < two256) as Hfit' by (vm_compute; reflexivity).
  pose proof (SetupO2ULToken_allocates_the_maximum_supply
                common.HexToHash sampleFounder sampleReserve emptyStateDB Hf Hr Hfit) as Hd.
  pose proof (SetupO2ULToken_allocates_the_maximum_supply
                common.HexToHash sampleFounder sampleFounder emptyStateDB Hf Hf Hfit') as Hs.
  cbv zeta in Hd, Hs.
  destruct Hd as (_ & Hd & _). destruct Hs as (_ & _ & Hs & _).
  destruct Hd as [Hdf Hdr]; [intros E; discriminate E|].
  split; [rewrite Hdf; vm_compute; reflexivity|].
  split; [rewrite Hdr; vm_compute; reflexivity|].
  rewrite (Hs eq_refl). vm_compute. reflexivity.
Defined.

Lemma other_balance_witness :
  sampleOther <> sampleTreasury
  /\ readBalance
       (ledgerOf (exec (ApplySupplyAdjustment common.HexToHash sampleExpansion sampleTreasury)
                       sampleManager)) sampleOther
     = readBalance (ledgerOf sampleManager) sampleOther.
Proof.
  assert (sampleOther <> sampleTreasury) as Hne by (intros E; discriminate E).
  split; [exact Hne|].
  destruct (apply_stays_within_treasury_and_system_account
              common.HexToHash sampleExpansion sampleTreasury sampleManager) as [Hb _].
  exact (Hb sampleOther Hne).
Defined.

Lemma adjustment_event_witness :
  adjustFeed (exec (ApplySupplyAdjustment common.HexToHash sampleExpansion sampleTreasury)
                   sampleManager)
  = [sampleExpansion]
  /\ adjustFeed (exec (ApplySupplyAdjustment common.HexToHash sampleUnaffordable sampleTreasury)
                      sampleManager)
     = [].
Proof.
  split.
  - destruct (adjustment_event_iff_applied
                common.HexToHash sampleExpansion sampleTreasury sampleManager) as [Hf _].
    rewrite Hf.
    assert (applied common.HexToHash sampleExpansion sampleTreasury sampleManager = true) as ->
      by (vm_compute; reflexivity).
    reflexivity.
  - destruct (adjustment_event_iff_applied
                common.HexToHash sampleUnaffordable sampleTreasury sampleManager) as [Hf _].
    rewrite Hf.
    assert (applied common.HexToHash sampleUnaffordable sampleTreasury sampleManager = false)
      as -> by (vm_compute; reflexivity).
    reflexivity.
Defined.

Lemma only_reads_witness :
  eval (GetAdjustmentHistory common.HexToHash 3) sampleUnavailable = []
  /\ ledgerOf (exec (GetAdjustmentHistory common.HexToHash 3) sampleUnavailable)
     = ledgerOf sampleUnavailable.
Proof.
  destruct (GetAdjustmentHistory_only_reads common.HexToHash 3 sampleUnavailable)
    as (Hl & _ & _ & _ & Herr).
  split; [|exact Hl].
  destruct (Herr "database closed" eq_refl) as [Hnone _]. exact Hnone.
Defined.

Lemma forced_update_witness :
  ForceUpdate common.HexToHash (Some "oracle unreachable") 1 2 sampleManager
  = (Some "oracle unreachable", sampleManager)
  /\ eval (ForceUpdate common.HexToHash nil 1 2) sampleUnavailable = nil
  /\ updateFeed (exec (ForceUpdate common.HexToHash nil 1 2) sampleUnavailable)
     = updateFeed sampleUnavailable.
Proof.
  split.
  - destruct (ForceUpdate_reports_only_the_oracle
                common.HexToHash (Some "oracle unreachable") 1 2 sampleManager) as [Hq _].
    exact (Hq "oracle unreachable" eq_refl).
  - destruct (ForceUpdate_reports_only_the_oracle common.HexToHash nil 1 2 sampleUnavailable)
      as [_ Hok].
    destruct (Hok eq_refl) as (Hnil & _ & Hdown).
    split; [exact Hnil|].
    destruct (Hdown "database closed" eq_refl) as [Hu _]. exact Hu.
Defined.

(** After genesis and one applied expansion, decided at second 3, the count
    reads 3 and a request for two entries returns two entries that hold the
    announced supply and the second 3 only. *)
Lemma journal_words_witness :
  applied common.HexToHash sampleEarlyExpansion sampleTreasury sampleFresh = true
  /\ historyCount common.HexToHash
       (ledgerOf (exec (ApplySupplyAdjustment common.HexToHash sampleEarlyExpansion
                                              sampleTreasury) sampleFresh)) = 3
  /\ eval (GetAdjustmentHistory common.HexToHash 2)
          (exec (ApplySupplyAdjustment common.HexToHash sampleEarlyExpansion sampleTreasury)
                sampleFresh)
     = [mkAdjustment seigniorage.None (1010000 * 10 ^ 18) (1010000 * 10 ^ 18) 3
                     (1010000 * 10 ^ 18) (3 * 10 ^ 9);
        mkAdjustment seigniorage.None (1010000 * 10 ^ 18) (1010000 * 10 ^ 18) 3
                     (1010000 * 10 ^ 18) (3 * 10 ^ 9)].
Proof.
  assert (applied common.HexToHash sampleEarlyExpansion sampleTreasury sampleFresh = true)
    as Ha by (vm_compute; reflexivity).
  assert (historyCount common.HexToHash
            (ledgerOf (exec (ApplySupplyAdjustment common.HexToHash sampleEarlyExpansion
                                                   sampleTreasury) sampleFresh)) = 3)
    as Hc by (vm_compute; reflexivity).
  split; [exact Ha|]. split; [exact Hc|].
  assert (0 <= 2 < 2 ^ 63) as Hn by lia.
  pose proof (journal_returns_words_of_the_last_decision
                sampleEarlyExpansion sampleTreasury sampleFresh 2 Ha Hn) as Hj.
  cbv zeta in Hj. rewrite Hc in Hj.
  destruct Hj as [_ Hj]; [lia|].
  rewrite Hj. vm_compute. reflexivity.
Defined.

(** After the sample genesis the weight of timeframe "3Day" and the weight of
    continent "Oceania" read the treasury address 0xbeef. *)
Lemma overwritten_weights_witness :
  readState (exec (SetupUltraStableToken common.HexToHash 0 sampleTreasury) emptyStateDB)
            params.UltraStableTokenSystemAddress
            (common.HexToHash ("timeframe_weight_" +:+ "3Day"))
  = 48879
  /\ readState (exec (SetupUltraStableToken common.HexToHash 0 sampleTreasury) emptyStateDB)
               params.UltraStableTokenSystemAddress
               (common.HexToHash ("continental_weight_" +:+ "Oceania"))
     = 48879.
Proof.
  assert (0 <= ultrastable.InitialSupply GetStableConfig < two256) as Hfit
    by (vm_compute; split; [intros E; discriminate E | reflexivity]).
  pose proof (genesis_overwrites_configured_weights 0 sampleTreasury emptyStateDB Hfit) as Hw.
  cbv zeta in Hw. destruct Hw as (Htf & _ & Hcw).
  split.
  - rewrite (Htf "3Day"). vm_compute. reflexivity.
  - rewrite (Hcw "Oceania" eq_refl). vm_compute. reflexivity.
Defined.
